(** * kfserving.storage: a shallow embedding of [Storage.download]

    The module [python/kfserving/kfserving/storage.py] resolves a model URI
    (gs://, s3://, Azure blob, file://, http(s)://) into a local directory.
    Python strings are Rocq [string]s, exceptions are values of [exn], the
    file system is a finite map from paths to nodes, and the calls to the
    cloud SDKs, to [requests] and to the process environment are fields of
    one record of external collaborators. *)

From Stdlib Require Import Ascii String List ZArith Lia Bool.
From stdpp Require Import base option gmap strings list pretty.

Local Open Scope string_scope.

(** ** Python [str] methods used by the module *)

Module Py.

Definition ascii_eqb (a b : ascii) : bool := Ascii.eqb a b.

(** [s.startswith(p)] *)
Fixpoint startswith (s p : string) {struct p} : bool :=
  match p with
  | EmptyString => true
  | String c p' =>
      match s with
      | EmptyString => false
      | String d s' => ascii_eqb c d && startswith s' p'
      end
  end.

(** [s[n:]] *)
Fixpoint drop (n : nat) (s : string) : string :=
  match n with
  | O => s
  | S n' => match s with EmptyString => EmptyString | String _ s' => drop n' s' end
  end.

(** [s[:n]] *)
Fixpoint take (n : nat) (s : string) : string :=
  match n with
  | O => EmptyString
  | S n' => match s with EmptyString => EmptyString | String c s' => String c (take n' s') end
  end.

(** [sub in s] *)
Fixpoint contains (s sub : string) : bool :=
  startswith s sub
  || match s with EmptyString => false | String _ s' => contains s' sub end.

(** [c in s] for a single character *)
Fixpoint has_char (c : ascii) (s : string) : bool :=
  match s with
  | EmptyString => false
  | String d s' => ascii_eqb c d || has_char c s'
  end.

(** [s.replace(old, new, 1)]: only the first occurrence is replaced. *)
Fixpoint replace1 (s old new : string) : string :=
  if startswith s old then new ++ drop (String.length old) s
  else match s with
       | EmptyString => EmptyString
       | String c s' => String c (replace1 s' old new)
       end.

(** [s.partition(c)] for a one-character separator: the text before the
    first [c], whether [c] was found, and the text after it. *)
Fixpoint partition (c : ascii) (s : string) : string * bool * string :=
  match s with
  | EmptyString => (EmptyString, false, EmptyString)
  | String d s' =>
      if ascii_eqb c d then (EmptyString, true, s')
      else let '(a, found, b) := partition c s' in (String d a, found, b)
  end.

(** [s.rpartition(c)]: split at the last [c]; without one, everything is
    in the third component. *)
Fixpoint rpartition (c : ascii) (s : string) : string * bool * string :=
  match s with
  | EmptyString => (EmptyString, false, EmptyString)
  | String d s' =>
      let '(a, found, b) := rpartition c s' in
      if found then (String d a, true, b)
      else if ascii_eqb c d then (EmptyString, true, s')
      else (EmptyString, false, String d b)
  end.

(** [s.split(c, 1)] *)
Definition split1 (c : ascii) (s : string) : list string :=
  let '(a, found, b) := partition c s in
  if found then [a; b] else [s].

(** [s.rsplit(c, 1)] *)
Definition rsplit1 (c : ascii) (s : string) : list string :=
  let '(a, found, b) := rpartition c s in
  if found then [a; b] else [s].

Fixpoint lstrip_by (p : ascii -> bool) (s : string) : string :=
  match s with
  | EmptyString => EmptyString
  | String c s' => if p c then lstrip_by p s' else s
  end.

Fixpoint rstrip_by (p : ascii -> bool) (s : string) : string :=
  match s with
  | EmptyString => EmptyString
  | String c s' =>
      match rstrip_by p s' with
      | EmptyString => if p c then EmptyString else String c EmptyString
      | r => String c r
      end
  end.

Definition strip_by (p : ascii -> bool) (s : string) : string :=
  rstrip_by p (lstrip_by p s).

(** [s.strip("/")] *)
Definition strip_slash (s : string) : string := strip_by (ascii_eqb "/") s.

(** [str.isspace] on the code points below 256. *)
Definition isspace (c : ascii) : bool :=
  let n := nat_of_ascii c in
  (Nat.leb 9 n && Nat.leb n 13) || (Nat.leb 28 n && Nat.leb n 32)
  || Nat.eqb n 133 || Nat.eqb n 160.

(** [s.strip()] *)
Definition strip (s : string) : string := strip_by isspace s.

(** [s.endswith("/")] and friends, for one character *)
Fixpoint endswith_char (s : string) (c : ascii) : bool :=
  match s with
  | EmptyString => false
  | String d EmptyString => ascii_eqb c d
  | String _ s' => endswith_char s' c
  end.

Definition lower_char (c : ascii) : ascii :=
  let n := nat_of_ascii c in
  if Nat.leb 65 n && Nat.leb n 90 then ascii_of_nat (n + 32) else c.

(** [s.lower()] on ASCII letters. *)
Fixpoint lower (s : string) : string :=
  match s with
  | EmptyString => EmptyString
  | String c s' => String (lower_char c) (lower s')
  end.

Definition is_empty (s : string) : bool :=
  match s with EmptyString => true | _ => false end.

(** [o == s] for a value [o] that may be [None]. *)
Definition opt_eqb (o : option string) (s : string) : bool :=
  match o with Some x => String.eqb x s | None => false end.

End Py.

(** ** The subset of [re] the module's two patterns use

    A pattern is a sequence of literal characters, [c?], [.], [.+], [.+?]
    and unnested groups. [.] matches every character except a newline. The
    matcher backtracks the way [re] does: [.+] tries the longest run first,
    [.+?] the shortest, and [search] returns the match at the leftmost
    start. *)

Module Re.

Inductive item : Type :=
| Lit (c : ascii)
| Opt (c : ascii)
| Dot
| PlusDot (lazy : bool)
| Open
| Close.

Fixpoint compile (p : string) : list item :=
  match p with
  | EmptyString => []
  | String c p' =>
      if Py.ascii_eqb c "(" then Open :: compile p'
      else if Py.ascii_eqb c ")" then Close :: compile p'
      else if Py.ascii_eqb c "." then
        match p' with
        | String "+" (String "?" p'') => PlusDot true :: compile p''
        | String "+" p'' => PlusDot false :: compile p''
        | _ => Dot :: compile p'
        end
      else
        match p' with
        | String "?" p'' => Opt c :: compile p''
        | _ => Lit c :: compile p'
        end
  end.

Definition is_newline (c : ascii) : bool := Py.ascii_eqb c "010".

(** [match_here its s pos opens caps]: match [its] against a prefix of
    [s], which starts at offset [pos] of the subject; [opens] holds the
    start offsets of the groups still open and [caps] the spans of the
    groups already closed, last first. *)
Fixpoint match_here (its : list item) (s : string) (pos : nat)
    (opens : list nat) (caps : list (nat * nat)) {struct its}
    : option (list (nat * nat)) :=
  match its with
  | [] => Some caps
  | Lit c :: rest =>
      match s with
      | String d s' =>
          if Py.ascii_eqb c d then match_here rest s' (S pos) opens caps else None
      | EmptyString => None
      end
  | Opt c :: rest =>
      let skip := match_here rest s pos opens caps in
      match s with
      | String d s' =>
          if Py.ascii_eqb c d then
            match match_here rest s' (S pos) opens caps with
            | Some r => Some r
            | None => skip
            end
          else skip
      | EmptyString => skip
      end
  | Dot :: rest =>
      match s with
      | String d s' =>
          if is_newline d then None else match_here rest s' (S pos) opens caps
      | EmptyString => None
      end
  | PlusDot lazy :: rest =>
      (fix go (s : string) (pos : nat) {struct s} : option (list (nat * nat)) :=
         match s with
         | EmptyString => None
         | String d s' =>
             if is_newline d then None
             else if lazy then
               match match_here rest s' (S pos) opens caps with
               | Some r => Some r
               | None => go s' (S pos)
               end
             else
               match go s' (S pos) with
               | Some r => Some r
               | None => match_here rest s' (S pos) opens caps
               end
         end) s pos
  | Open :: rest => match_here rest s pos (pos :: opens) caps
  | Close :: rest =>
      match opens with
      | start :: opens' => match_here rest s pos opens' ((start, pos) :: caps)
      | [] => None
      end
  end.

Fixpoint search_from (its : list item) (s : string) (pos : nat)
    : option (list (nat * nat)) :=
  match match_here its s pos [] [] with
  | Some caps => Some caps
  | None =>
      match s with
      | EmptyString => None
      | String _ s' => search_from its s' (S pos)
      end
  end.

(** [re.search(pattern, s)]: [None], or the texts of the groups in order. *)
Definition search (pattern s : string) : option (list string) :=
  match search_from (compile pattern) s 0 with
  | Some caps =>
      Some (map (fun '(a, b) => Py.take (b - a) (Py.drop a s)) (rev caps))
  | None => None
  end.

Definition matches (pattern s : string) : bool :=
  match search pattern s with Some _ => true | None => false end.

End Re.

(** ** [os.path] (posixpath) *)

Module OsPath.

(** [os.path.join(a, b)] *)
Definition join (a b : string) : string :=
  if Py.startswith b "/" then b
  else if Py.is_empty a || Py.endswith_char a "/" then a ++ b
  else a ++ "/" ++ b.

(** [os.path.basename(p)]: the text after the last [/]. *)
Definition basename (p : string) : string :=
  let '(_, _, tail) := Py.rpartition "/" p in tail.

Definition all_slashes (s : string) : bool :=
  Py.is_empty (Py.lstrip_by (Py.ascii_eqb "/") s).

(** [os.path.split(p)]: the head keeps its slashes only when it consists
    of slashes. *)
Definition split (p : string) : string * string :=
  let '(a, found, tail) := Py.rpartition "/" p in
  let head := if found then a ++ "/" else EmptyString in
  let head := if all_slashes head then head
              else Py.rstrip_by (Py.ascii_eqb "/") head in
  (head, tail).

(** [os.path.dirname(p)] *)
Definition dirname (p : string) : string := fst (split p).

Definition all_dots (s : string) : bool :=
  Py.is_empty (Py.lstrip_by (Py.ascii_eqb ".") s).

(** [posixpath.splitext(p)]: the extension starts at the last dot of the
    last component, unless only dots come before it in that component. *)
Definition splitext (p : string) : string * string :=
  let '(stem, found, e) := Py.rpartition "." (basename p) in
  if found && negb (all_dots stem)
  then (Py.take (String.length p - S (String.length e)) p, String "." e)
  else (p, EmptyString).

End OsPath.

(** ** Exceptions and results *)

(** The Python exception classes the module raises or lets through. The
    argument is the message; for [OSError] it is the name of the subclass
    ([FileExistsError], [FileNotFoundError], ...), and [ExternalError] stands
    for an exception of one of the SDKs or codecs, named by its class. *)
Inductive exn : Type :=
| RuntimeError (msg : string)
| ValueError (msg : string)
| TypeError (msg : string)
| AttributeError (msg : string)
| Exception_ (msg : string)
| OSError (kind : string)
| ExternalError (cls : string).

Inductive result (A : Type) : Type :=
| Ok (a : A)
| Raise (e : exn).
Arguments Ok {A} a.
Arguments Raise {A} e.

(** ** [urllib.parse.urlparse] (CPython 3.8) *)

Module UrlParse.

Record parse_result : Type := {
  scheme : string;
  netloc : string;
  path : string;
  params : string;
  query : string;
  fragment : string
}.

Definition in_range (lo hi : nat) (c : ascii) : bool :=
  let n := nat_of_ascii c in Nat.leb lo n && Nat.leb n hi.

Definition is_digit (c : ascii) : bool := in_range 48 57 c.

(** [scheme_chars]: letters, digits and [+-.] *)
Definition scheme_char (c : ascii) : bool :=
  in_range 97 122 c || in_range 65 90 c || is_digit c
  || Py.ascii_eqb c "+" || Py.ascii_eqb c "-" || Py.ascii_eqb c ".".

Fixpoint all_chars (p : ascii -> bool) (s : string) : bool :=
  match s with
  | EmptyString => true
  | String c s' => p c && all_chars p s'
  end.

(** [_splitnetloc(url, 2)] on a [url] whose first two characters have been
    removed already: the netloc runs up to the first of [/], [?], [#]. *)
Fixpoint splitnetloc (url : string) : string * string :=
  match url with
  | EmptyString => (EmptyString, EmptyString)
  | String c url' =>
      if Py.ascii_eqb c "/" || Py.ascii_eqb c "?" || Py.ascii_eqb c "#"
      then (EmptyString, url)
      else let '(n, r) := splitnetloc url' in (String c n, r)
  end.

Definition bad_brackets (netloc : string) : bool :=
  xorb (Py.has_char "[" netloc) (Py.has_char "]" netloc).

(** The part of [urlsplit] after the scheme has been taken off. *)
Definition split_rest (scheme url : string)
    : result (string * string * string * string * string) :=
  let '(netloc, url) :=
    if Py.startswith url "//" then splitnetloc (Py.drop 2 url)
    else (EmptyString, url) in
  if bad_brackets netloc then Raise (ValueError "Invalid IPv6 URL")
  else
    let '(url, has_f, fragment) := Py.partition "#" url in
    let '(url, has_q, query) := Py.partition "?" url in
    Ok (scheme, netloc, url, query, fragment).

Definition urlsplit (url : string)
    : result (string * string * string * string * string) :=
  let '(before, found, rest) := Py.partition ":" url in
  if found && negb (Py.is_empty before) then
    if String.eqb before "http" then split_rest "http" rest
    else if all_chars scheme_char before
              && (Py.is_empty rest || negb (all_chars is_digit rest))
    then split_rest (Py.lower before) rest
    else split_rest EmptyString url
  else split_rest EmptyString url.

Definition uses_params : list string :=
  [""; "ftp"; "hdl"; "prospero"; "http"; "imap"; "https"; "shttp"; "rtsp";
   "rtspu"; "sip"; "sips"; "mms"; "sftp"; "tel"].

(** [_splitparams]: the parameters follow the first [;] of the last path
    segment. *)
Definition splitparams (url : string) : string * string :=
  let '(head, has_slash, tail) := Py.rpartition "/" url in
  if has_slash then
    let '(t, has_semi, p) := Py.partition ";" tail in
    if has_semi then (head ++ "/" ++ t, p) else (url, EmptyString)
  else
    let '(t, _, p) := Py.partition ";" url in (t, p).

Definition urlparse (url : string) : result parse_result :=
  match urlsplit url with
  | Raise e => Raise e
  | Ok (scheme, netloc, url, query, fragment) =>
      let '(url, params) :=
        if existsb (String.eqb scheme) uses_params && Py.has_char ";" url
        then splitparams url else (url, EmptyString) in
      Ok {| scheme := scheme; netloc := netloc; path := url;
            params := params; query := query; fragment := fragment |}
  end.

(** The [hostname] property: user information, port and brackets are
    dropped, the name is lower-cased up to a zone mark [%]; an empty name
    is [None]. *)
Definition hostname (r : parse_result) : option string :=
  let '(_, _, hostinfo) := Py.rpartition "@" (netloc r) in
  let '(_, have_open_br, bracketed) := Py.partition "[" hostinfo in
  let host :=
    if have_open_br then let '(h, _, _) := Py.partition "]" bracketed in h
    else let '(h, _, _) := Py.partition ":" hostinfo in h in
  if Py.is_empty host then None
  else
    let '(h, percent, zone) := Py.partition "%" host in
    Some (Py.lower h ++ (if percent then "%" else EmptyString) ++ zone).

End UrlParse.

(** ** [mimetypes.guess_type] (CPython 3.8, [strict=True])

    The extension table [types_map] is read from the host's MIME files when
    the module is initialised, so it is an argument here. *)

Module Mimetypes.

Definition suffix_map : list (string * string) :=
  [(".svgz", ".svg.gz"); (".tgz", ".tar.gz"); (".taz", ".tar.gz");
   (".tz", ".tar.gz"); (".tbz2", ".tar.bz2"); (".txz", ".tar.xz")].

Definition encodings_map : list (string * string) :=
  [(".gz", "gzip"); (".Z", "compress"); (".bz2", "bzip2"); (".xz", "xz")].

Fixpoint assoc (k : string) (l : list (string * string)) : option string :=
  match l with
  | [] => None
  | (k', v) :: l' => if String.eqb k k' then Some v else assoc k l'
  end.

(** [urllib.parse._splittype]: a leading [scheme:] without [/] in it. *)
Definition splittype (url : string) : option string * string :=
  let '(before, found, rest) := Py.partition ":" url in
  if found && negb (Py.is_empty before) && negb (Py.has_char "/" before)
  then (Some (Py.lower before), rest)
  else (None, url).

(** The [while ext in suffix_map] loop: no value of [suffix_map] ends in
    one of its keys, so the loop body runs at most once (lemma
    [expand_suffix_fuel]); [fuel] bounds it all the same. *)
Fixpoint expand_suffix (fuel : nat) (base ext : string) : string * string :=
  match fuel with
  | O => (base, ext)
  | S fuel' =>
      match assoc ext suffix_map with
      | Some long =>
          let '(base', ext') := OsPath.splitext (base ++ long) in
          expand_suffix fuel' base' ext'
      | None => (base, ext)
      end
  end.

Definition guess_type (types_map : gmap string string) (url : string)
    : option string * option string :=
  let '(scheme, url) := splittype url in
  if match scheme with Some sch => String.eqb sch "data" | None => false end
  then
    let '(before_comma, has_comma, _) := Py.partition "," url in
    if negb has_comma then (None, None)
    else
      let '(before_semi, _, _) := Py.partition ";" before_comma in
      let type := before_semi in
      if Py.has_char "=" type || negb (Py.has_char "/" type)
      then (Some "text/plain", None)
      else (Some type, None)
  else
    let '(base, ext) := OsPath.splitext url in
    let '(base, ext) := expand_suffix 2 base ext in
    let '(encoding, ext) :=
      match assoc ext encodings_map with
      | Some enc => (Some enc, snd (OsPath.splitext base))
      | None => (None, ext)
      end in
    match types_map !! ext with
    | Some ty => (Some ty, encoding)
    | None =>
        match types_map !! Py.lower ext with
        | Some ty => (Some ty, encoding)
        | None => (None, encoding)
        end
    end.

End Mimetypes.

(** ** File system, collaborators and the effect monad *)

(** File contents are kept in decoded form: what a byte string is the gzip,
    tar or zip encoding of. *)
Inductive content : Type :=
| Raw (data : string)
| Gz (inner : content)
| Tar (members : list (string * string))
| Zip (members : list (string * string)).

Inductive node : Type :=
| File (c : content)
| Dir
| Symlink (target : string).

Definition headers : Type := list (string * string).

(** The object returned by [Minio(...)]. *)
Record minio_client : Type := {
  endpoint : string;
  access_key : string;
  secret_key : string;
  region : string;
  secure : bool
}.

(** An entry of [client.list_objects]. *)
Record s3_object : Type := {
  object_name : string;
  is_dir : bool;
  s3_body : content
}.

(** An entry of [bucket.list_blobs] and of [BlockBlobService.list_blobs]. *)
Record blob : Type := {
  name : string;
  blob_body : content
}.

(** A [requests] response: [headers.get('Content-Type')] is [content_type]. *)
Record response : Type := {
  status_code : Z;
  content_type : option string;
  raw : content
}.

(** What the module does to the outside world, in order. *)
Inductive event : Type :=
| MinioListObjects (client : minio_client) (bucket prefix : string)
| MinioFgetObject (bucket object_name file_path : string)
| GcsListBlobs (anonymous : bool) (bucket prefix : string)
| GcsDownloadToFilename (blob_name dest_path : string)
| AzureListBlobs (account : string) (token : option string) (container prefix : string)
| AzureGetBlobToPath (container blob_name dest_path : string)
| AdalAcquireToken (authority_url client_id : string)
| RequestsGet (uri : string) (hs : headers).

(** The collaborators the spec leaves outside: process environment, MIME
    table, JSON decoder, glob, temporary names, and the four remote
    services. *)
Record world : Type := {
  environ : gmap string string;
  types_map : gmap string string;
  json_loads : string -> result headers;
  glob : gmap string node -> string -> list string;
  mkdtemp_name : gmap string node -> string;
  requests_get : string -> headers -> result response;
  minio_list_objects : minio_client -> string -> string -> result (list s3_object);
  gcs_default_credentials : bool;
  gcs_list_blobs : bool -> string -> string -> result (list blob);
  azure_list_blobs : string -> option string -> string -> string -> result (list blob);
  adal_acquire_token : string -> string -> string -> string -> result string
}.

Record state : Type := {
  files : gmap string node;
  trace : list event
}.

Definition M (A : Type) : Type := state -> result A * state.

Definition ret {A} (a : A) : M A := fun st => (Ok a, st).
Definition raise {A} (e : exn) : M A := fun st => (Raise e, st).
Definition bind {A B} (m : M A) (k : A -> M B) : M B :=
  fun st =>
    match m st with
    | (Ok a, st') => k a st'
    | (Raise e, st') => (Raise e, st')
    end.

(** [try: m except Exception: h] *)
Definition try_except {A} (m : M A) (h : M A) : M A :=
  fun st =>
    match m st with
    | (Ok a, st') => (Ok a, st')
    | (Raise _, st') => h st'
    end.

Definition lift {A} (r : result A) : M A := fun st => (r, st).
Definition get_files : M (gmap string node) := fun st => (Ok (files st), st).
Definition put_files (fs : gmap string node) : M unit :=
  fun st => (Ok tt, {| files := fs; trace := trace st |}).
Definition emit (e : event) : M unit :=
  fun st => (Ok tt, {| files := files st; trace := trace st ++ [e] |}).

Notation "x <- m ;; k" := (bind m (fun x => k))
  (at level 90, m at level 80, right associativity).
Notation "m ;;; k" := (bind m (fun _ => k))
  (at level 90, right associativity).

(** [os.getenv(key, default)] *)
Definition getenv (w : world) (key default : string) : string :=
  match environ w !! key with Some v => v | None => default end.

(** *** File-system primitives *)

Module Fs.

Definition exists_ (fs : gmap string node) (p : string) : bool :=
  match fs !! p with Some _ => true | None => false end.

Definition isdir (fs : gmap string node) (p : string) : bool :=
  match fs !! p with Some Dir => true | _ => false end.

(** [os.mkdir(p)]: the path must be new and its parent a directory (an
    empty parent is the working directory). *)
Definition mkdir_files (fs : gmap string node) (p : string)
    : result (gmap string node) :=
  if exists_ fs p then Raise (OSError "FileExistsError")
  else if Py.is_empty (OsPath.dirname p) || isdir fs (OsPath.dirname p)
  then Ok (<[p := Dir]> fs)
  else Raise (OSError "FileNotFoundError").

Definition is_file_exists_error (e : exn) : bool :=
  match e with OSError kind => String.eqb kind "FileExistsError" | _ => false end.

(** The last step of [os.makedirs]: [mkdir(name)], where a failure is
    let pass when [exist_ok] holds and [name] is a directory. *)
Definition mkdir_exist_ok (fs : gmap string node) (name : string) (exist_ok : bool)
    : result (gmap string node) :=
  match mkdir_files fs name with
  | Ok fs' => Ok fs'
  | Raise e => if exist_ok && isdir fs name then Ok fs else Raise e
  end.

(** [os.makedirs(name, exist_ok)]; the recursion on the head of the path
    is bounded by [fuel], and the length of the path is always enough
    (lemma [makedirs_files_fuel]). *)
Fixpoint makedirs_files (fuel : nat) (fs : gmap string node) (name : string)
    (exist_ok : bool) : result (gmap string node) :=
  let '(head, tail) := OsPath.split name in
  let '(head, tail) := if Py.is_empty tail then OsPath.split head else (head, tail) in
  if negb (Py.is_empty head) && negb (Py.is_empty tail) && negb (exists_ fs head)
  then
    match fuel with
    | O => Raise (OSError "RecursionError")
    | S fuel' =>
        match makedirs_files fuel' fs head exist_ok with
        | Ok fs' =>
            if String.eqb tail "." then Ok fs' else mkdir_exist_ok fs' name exist_ok
        | Raise e =>
            if is_file_exists_error e
            then if String.eqb tail "." then Ok fs else mkdir_exist_ok fs name exist_ok
            else Raise e
        end
    end
  else mkdir_exist_ok fs name exist_ok.

Definition exists_path (p : string) : M bool :=
  fs <- get_files ;; ret (exists_ fs p).

Definition isdir_path (p : string) : M bool :=
  fs <- get_files ;; ret (isdir fs p).

Definition mkdir (p : string) : M unit :=
  fs <- get_files ;; fs' <- lift (mkdir_files fs p) ;; put_files fs'.

Definition makedirs (p : string) (exist_ok : bool) : M unit :=
  fs <- get_files ;;
  fs' <- lift (makedirs_files (String.length p) fs p exist_ok) ;;
  put_files fs'.

(** [tempfile.mkdtemp()] *)
Definition mkdtemp (w : world) : M string :=
  fs <- get_files ;;
  let d := mkdtemp_name w fs in
  put_files (<[d := Dir]> fs) ;;; ret d.

(** Creating or replacing the file at [p] ([open(p, 'wb')] and the
    writers of the SDKs). Writing over a directory fails. The parent is
    not looked at: at every call site the module or the SDK has made it. *)
Definition write_file (p : string) (c : content) : M unit :=
  fs <- get_files ;;
  if isdir fs p then raise (OSError "IsADirectoryError")
  else put_files (<[p := File c]> fs).

(** [os.symlink(src, dst)] *)
Definition symlink (src dst : string) : M unit :=
  fs <- get_files ;;
  if exists_ fs dst then raise (OSError "FileExistsError")
  else put_files (<[dst := Symlink src]> fs).

(** [os.remove(p)] *)
Definition remove (p : string) : M unit :=
  fs <- get_files ;;
  match fs !! p with
  | None => raise (OSError "FileNotFoundError")
  | Some Dir => raise (OSError "IsADirectoryError")
  | Some _ => put_files (delete p fs)
  end.

Definition read_file (p : string) : M content :=
  fs <- get_files ;;
  match fs !! p with
  | Some (File c) => ret c
  | Some Dir => raise (OSError "IsADirectoryError")
  | _ => raise (OSError "FileNotFoundError")
  end.

End Fs.

(** ** The module [storage.py] *)

Definition _GCS_PREFIX : string := "gs://".
Definition _S3_PREFIX : string := "s3://".
Definition _BLOB_RE : string := "https://(.+?).blob.core.windows.net/(.+)".
Definition _LOCAL_PREFIX : string := "file://".
Definition _URI_RE : string := "https?://(.+)/(.+)".
Definition _HTTP_PREFIX : string := "http(s)://".
Definition _HEADERS_SUFFIX : string := "-headers".

(** *** The error taxonomy of the spec, as the exceptions the code raises *)

Definition ArtifactNotFound (uri : string) : exn :=
  RuntimeError ("Failed to fetch model. The path or model " ++ uri ++ " does not exist.").

Definition LocalPathNotFound (uri : string) : exn :=
  RuntimeError ("Local path " ++ uri ++ " does not exist.").

Definition MissingFilename (uri : string) : exn :=
  ValueError ("No filename contained in URI: " ++ uri).

Definition FetchFailed (uri : string) (status : Z) : exn :=
  RuntimeError ("URI: " ++ uri ++ " returned a " ++ pretty status ++ " response code.").

Definition ContentTypeMismatch (uri expected : string) : exn :=
  RuntimeError ("URI: " ++ uri ++ " did not respond with 'Content-Type': '" ++ expected ++ "'").

Definition UnrecognizedScheme (uri : string) : exn :=
  Exception_ ("Cannot recognize storage type for " ++ uri ++ String "010"
              ("'" ++ _GCS_PREFIX ++ "', '" ++ _S3_PREFIX ++ "', '" ++ _LOCAL_PREFIX
               ++ "', and '" ++ _HTTP_PREFIX ++ "' are the current available storage type.")).

(** What [a, b = xs] raises on a one-element list. *)
Definition UnpackError : exn :=
  ValueError "not enough values to unpack (expected 2, got 1)".

(** *** How the object-store backends read a URI, and what they fetch *)

(** [uri.replace(prefix, "", 1).split("/", 1)] *)
Definition bucket_args (uri prefix : string) : list string :=
  Py.split1 "/" (Py.replace1 uri prefix "").

Definition bucket_name_of (uri prefix : string) : string :=
  List.nth 0 (bucket_args uri prefix) "".

Definition bucket_path_of (uri prefix : string) : string :=
  if Nat.ltb 1 (List.length (bucket_args uri prefix))
  then List.nth 1 (bucket_args uri prefix) "" else "".

(** [key.replace(bucket_path, "", 1).strip("/")] *)
Definition relative_key (bucket_path key : string) : string :=
  Py.strip_slash (Py.replace1 key bucket_path "").

(** The key-prefix with a trailing [/] appended when it is missing. *)
Definition with_trailing_slash (key_prefix : string) : string :=
  if Py.endswith_char key_prefix "/" then key_prefix else key_prefix ++ "/".

(** The objects [_download_s3] fetches and where it puts them. *)
Definition s3_target (bucket_path temp_dir : string) (obj : s3_object) : string :=
  OsPath.join temp_dir
    (if String.eqb (relative_key bucket_path (object_name obj)) ""
     then object_name obj else relative_key bucket_path (object_name obj)).

Definition s3_fetches (bucket_name bucket_path temp_dir : string)
    (objects : list s3_object) : list event :=
  List.map (fun obj => MinioFgetObject bucket_name (object_name obj)
                         (s3_target bucket_path temp_dir obj))
    (List.filter (fun obj => negb (is_dir obj)) objects).

(** The blobs [_download_gcs] fetches and where it puts them: those whose
    relative key is not blank. *)
Definition gcs_kept (bucket_path : string) (b : blob) : bool :=
  negb (String.eqb (Py.strip (relative_key bucket_path (name b))) "").

Definition gcs_fetches (bucket_path temp_dir : string) (blobs : list blob)
    : list event :=
  List.map (fun b => GcsDownloadToFilename (name b)
                       (OsPath.join temp_dir (relative_key bucket_path (name b))))
    (List.filter (gcs_kept bucket_path) blobs).

(** The failures the spec documents: its six kinds raised by the module
    itself, and a failure of the credential exchange, which comes from the
    identity SDK. *)
Definition in_taxonomy (e : exn) : Prop :=
  (exists u, e = UnrecognizedScheme u) \/ (exists u, e = LocalPathNotFound u)
  \/ (exists u, e = ArtifactNotFound u) \/ (exists u, e = MissingFilename u)
  \/ (exists u status, e = FetchFailed u status)
  \/ (exists u expected, e = ContentTypeMismatch u expected)
  \/ (exists cls, e = ExternalError cls).

Module Storage.

Section WithWorld.

Variable w : world.

(** [_create_minio_client] *)
Definition _create_minio_client : result minio_client :=
  match UrlParse.urlparse (getenv w "AWS_ENDPOINT_URL" "http://s3.amazonaws.com") with
  | Raise e => Raise e
  | Ok url =>
      let use_ssl :=
        if negb (Py.is_empty (UrlParse.scheme url))
        then String.eqb (UrlParse.scheme url) "https"
        else negb (Py.is_empty (getenv w "S3_USE_HTTPS" "true")) in
      Ok {| endpoint := UrlParse.netloc url;
            access_key := getenv w "AWS_ACCESS_KEY_ID" "";
            secret_key := getenv w "AWS_SECRET_ACCESS_KEY" "";
            region := getenv w "AWS_REGION" "";
            secure := use_ssl |}
  end.

(** [client.fget_object(bucket, object_name, file_path)] *)
Definition fget_object (bucket_name : string) (obj : s3_object) (file_path : string)
    : M unit :=
  Fs.write_file file_path (s3_body obj) ;;;
  emit (MinioFgetObject bucket_name (object_name obj) file_path).

(** The body of [for obj in objects] of [_download_s3]. *)
Definition s3_step (bucket_name bucket_path temp_dir : string) (obj : s3_object)
    : M unit :=
  let subdir_object_key :=
    Py.strip_slash (Py.replace1 (object_name obj) bucket_path "") in
  if negb (is_dir obj) then
    let subdir_object_key :=
      if String.eqb subdir_object_key "" then object_name obj
      else subdir_object_key in
    fget_object bucket_name obj (OsPath.join temp_dir subdir_object_key)
  else ret tt.

Fixpoint s3_loop (bucket_name bucket_path temp_dir : string)
    (objects : list s3_object) (count : nat) : M nat :=
  match objects with
  | [] => ret count
  | obj :: rest =>
      s3_step bucket_name bucket_path temp_dir obj ;;;
      s3_loop bucket_name bucket_path temp_dir rest (count + 1)
  end.

Definition _download_s3 (uri temp_dir : string) : M unit :=
  client <- lift _create_minio_client ;;
  let bucket_args := Py.split1 "/" (Py.replace1 uri _S3_PREFIX "") in
  let bucket_name := List.nth 0 bucket_args "" in
  let bucket_path :=
    if Nat.ltb 1 (List.length bucket_args) then List.nth 1 bucket_args "" else "" in
  emit (MinioListObjects client bucket_name bucket_path) ;;;
  objects <- lift (minio_list_objects w client bucket_name bucket_path) ;;
  count <- s3_loop bucket_name bucket_path temp_dir objects 0 ;;
  if Nat.eqb count 0 then raise (ArtifactNotFound uri) else ret tt.

(** [blob.download_to_filename(dest_path)] *)
Definition download_to_filename (b : blob) (dest_path : string) : M unit :=
  Fs.write_file dest_path (blob_body b) ;;;
  emit (GcsDownloadToFilename (name b) dest_path).

(** The body of [for blob in blobs] of [_download_gcs]. *)
Definition gcs_step (bucket_path temp_dir : string) (b : blob) : M unit :=
  let subdir_object_key := Py.strip_slash (Py.replace1 (name b) bucket_path "") in
  (if Py.has_char "/" subdir_object_key then
     let local_object_dir :=
       OsPath.join temp_dir (List.nth 0 (Py.rsplit1 "/" subdir_object_key) "") in
     isd <- Fs.isdir_path local_object_dir ;;
     if negb isd then Fs.makedirs local_object_dir true else ret tt
   else ret tt) ;;;
  if negb (String.eqb (Py.strip subdir_object_key) "") then
    let dest_path := OsPath.join temp_dir subdir_object_key in
    download_to_filename b dest_path
  else ret tt.

Fixpoint gcs_loop (bucket_path temp_dir : string) (blobs : list blob) (count : nat)
    : M nat :=
  match blobs with
  | [] => ret count
  | b :: rest =>
      gcs_step bucket_path temp_dir b ;;;
      gcs_loop bucket_path temp_dir rest (count + 1)
  end.

Definition _download_gcs (uri temp_dir : string) : M unit :=
  let anonymous := negb (gcs_default_credentials w) in
  let bucket_args := Py.split1 "/" (Py.replace1 uri _GCS_PREFIX "") in
  let bucket_name := List.nth 0 bucket_args "" in
  let bucket_path :=
    if Nat.ltb 1 (List.length bucket_args) then List.nth 1 bucket_args "" else "" in
  let prefix := bucket_path in
  let prefix := if negb (Py.endswith_char prefix "/") then prefix ++ "/" else prefix in
  emit (GcsListBlobs anonymous bucket_name prefix) ;;;
  blobs <- lift (gcs_list_blobs w anonymous bucket_name prefix) ;;
  count <- gcs_loop bucket_path temp_dir blobs 0 ;;
  if Nat.eqb count 0 then raise (ArtifactNotFound uri) else ret tt.

(** [_get_azure_storage_token]: [None] unless all four settings are there. *)
Definition _get_azure_storage_token : M (option string) :=
  let tenant_id := getenv w "AZ_TENANT_ID" "" in
  let client_id := getenv w "AZ_CLIENT_ID" "" in
  let client_secret := getenv w "AZ_CLIENT_SECRET" "" in
  let subscription_id := getenv w "AZ_SUBSCRIPTION_ID" "" in
  if String.eqb tenant_id "" || String.eqb client_id "" || String.eqb client_secret ""
     || String.eqb subscription_id ""
  then ret None
  else
    let authority_url := "https://login.microsoftonline.com/" ++ tenant_id in
    emit (AdalAcquireToken authority_url client_id) ;;;
    token <- lift (adal_acquire_token w authority_url "https://storage.azure.com/"
                     client_id client_secret) ;;
    ret (Some token).

Definition list_blobs_azure (account_name : string) (token : option string)
    (container_name prefix : string) : M (list blob) :=
  emit (AzureListBlobs account_name token container_name prefix) ;;;
  lift (azure_list_blobs w account_name token container_name prefix).

(** The body of [for blob in blobs] of [_download_blob]. *)
Definition blob_step (container_name prefix out_dir : string) (b : blob) : M unit :=
  dest_path <-
    (if Py.has_char "/" (name b) then
       let '(head, tail) := OsPath.split (name b) in
       let head := Py.drop (String.length prefix) head in
       let head := if Py.startswith head "/" then Py.drop 1 head else head in
       let dir_path := OsPath.join out_dir head in
       let dest_path := OsPath.join dir_path tail in
       isd <- Fs.isdir_path dir_path ;;
       (if negb isd then Fs.makedirs dir_path false else ret tt) ;;;
       ret dest_path
     else ret (OsPath.join out_dir (name b))) ;;
  Fs.write_file dest_path (blob_body b) ;;;
  emit (AzureGetBlobToPath container_name (name b) dest_path).

Fixpoint blob_loop (container_name prefix out_dir : string) (blobs : list blob)
    (count : nat) : M nat :=
  match blobs with
  | [] => ret count
  | b :: rest =>
      blob_step container_name prefix out_dir b ;;;
      blob_loop container_name prefix out_dir rest (count + 1)
  end.

Definition _download_blob (uri out_dir : string) : M unit :=
  match Re.search _BLOB_RE uri with
  | Some [account_name; storage_url] =>
      match Py.split1 "/" storage_url with
      | [container_name; prefix] =>
          blobs <-
            try_except
              (list_blobs_azure account_name None container_name prefix)
              (token <- _get_azure_storage_token ;;
               list_blobs_azure account_name token container_name prefix) ;;
          count <- blob_loop container_name prefix out_dir blobs 0 ;;
          if Nat.eqb count 0 then raise (ArtifactNotFound uri) else ret tt
      | _ => raise UnpackError
      end
  | _ => raise (AttributeError "'NoneType' object has no attribute 'group'")
  end.

Fixpoint link_loop (out_dir : string) (srcs : list string) : M unit :=
  match srcs with
  | [] => ret tt
  | src :: rest =>
      let '(_, tail) := OsPath.split src in
      let dest_path := OsPath.join out_dir tail in
      Fs.symlink src dest_path ;;;
      link_loop out_dir rest
  end.

Definition _download_local (uri : string) (out_dir : option string) : M string :=
  let local_path := Py.replace1 uri _LOCAL_PREFIX "" in
  ex <- Fs.exists_path local_path ;;
  if negb ex then raise (LocalPathNotFound uri)
  else
    match out_dir with
    | None => ret local_path
    | Some out_dir =>
        isd <- Fs.isdir_path out_dir ;;
        (if negb isd then Fs.makedirs out_dir false else ret tt) ;;;
        src_is_dir <- Fs.isdir_path local_path ;;
        let local_path :=
          if src_is_dir then OsPath.join local_path "*" else local_path in
        fs <- get_files ;;
        link_loop out_dir (glob w fs local_path) ;;;
        ret out_dir
    end.

(** [gzip.GzipFile(fileobj=response.raw)], read to the end. *)
Definition gunzip (c : content) : result content :=
  match c with
  | Gz inner => Ok inner
  | Raw EmptyString => Ok (Raw EmptyString)
  | _ => Raise (OSError "BadGzipFile")
  end.

(** [tarfile.open(path, 'r')]: compression is detected from the data. *)
Definition tar_members (c : content) : result (list (string * string)) :=
  match c with
  | Tar members => Ok members
  | Gz (Tar members) => Ok members
  | _ => Raise (ExternalError "tarfile.ReadError")
  end.

(** [zipfile.ZipFile(path, 'r')] *)
Definition zip_members (c : content) : result (list (string * string)) :=
  match c with
  | Zip members => Ok members
  | _ => Raise (ExternalError "zipfile.BadZipFile")
  end.

(** [archive.extractall(out_dir)] *)
Fixpoint extractall (out_dir : string) (members : list (string * string)) : M unit :=
  match members with
  | [] => ret tt
  | (member, data) :: rest =>
      Fs.write_file (OsPath.join out_dir member) (Raw data) ;;;
      extractall out_dir rest
  end.

Definition content_type_header (r : response) : string :=
  match content_type r with Some ct => ct | None => "" end.

(** Lines 254 to 271 of [_download_from_uri]: the response is written to
    [local_path], through the gzip reader when the guessed encoding is gzip,
    and an archive is unpacked and removed. *)
Definition save_response (out_dir filename : string) (mimetype encoding : option string)
    (response : response) : M string :=
  let is_zip := Py.opt_eqb mimetype "application/zip" in
  let is_tar := Py.opt_eqb mimetype "application/x-tar" in
  let is_gzip := Py.opt_eqb encoding "gzip" in
  let local_path :=
    if is_gzip then OsPath.join out_dir (filename ++ ".tar")
    else OsPath.join out_dir filename in
  Fs.write_file local_path (Raw "") ;;;
  body <- lift (if is_gzip then gunzip (raw response) else Ok (raw response)) ;;
  Fs.write_file local_path body ;;;
  (if is_tar || is_zip then
     archive <- Fs.read_file local_path ;;
     members <- lift (if is_tar then tar_members archive else zip_members archive) ;;
     extractall out_dir members ;;;
     Fs.remove local_path
   else ret tt) ;;;
  ret out_dir.

Definition _download_from_uri (uri out_dir : string) : M string :=
  url <- lift (UrlParse.urlparse uri) ;;
  let filename := OsPath.basename (UrlParse.path url) in
  let '(mimetype, encoding) := Mimetypes.guess_type (types_map w) (UrlParse.path url) in
  if String.eqb filename "" then raise (MissingFilename uri)
  else
    match UrlParse.hostname url with
    | None =>
        raise (TypeError "unsupported operand type(s) for +: 'NoneType' and 'str'")
    | Some host_uri =>
        let headers_json := getenv w (host_uri ++ _HEADERS_SUFFIX) "{}" in
        hs <- lift (json_loads w headers_json) ;;
        emit (RequestsGet uri hs) ;;;
        response <- lift (requests_get w uri hs) ;;
        let ct := content_type_header response in
        let is_zip := Py.opt_eqb mimetype "application/zip" in
        let is_tar := Py.opt_eqb mimetype "application/x-tar" in
        if negb (Z.eqb (status_code response) 200)
        then raise (FetchFailed uri (status_code response))
        else if is_zip && negb (Py.startswith ct "application/zip")
        then raise (ContentTypeMismatch uri "application/zip")
        else if is_tar && negb (Py.startswith ct "application/x-tar")
        then raise (ContentTypeMismatch uri "application/x-tar")
        else if (negb is_zip && negb is_tar)
                && negb (Py.startswith ct "application/octet-stream")
        then raise (ContentTypeMismatch uri "application/octet-stream")
        else save_response out_dir filename mimetype encoding response
    end.

(** The constant of [kfserving.kfmodel_repository], which is not part of
    the sources at hand. *)
Variable MODEL_MOUNT_DIRS : string.

(** Lines 59 to 79 of [download]: the dispatch on the URI. *)
Definition dispatch (uri out_dir : string) (is_local : bool) : M string :=
  if Py.startswith uri _GCS_PREFIX then
    _download_gcs uri out_dir ;;; ret out_dir
  else if Py.startswith uri _S3_PREFIX then
    _download_s3 uri out_dir ;;; ret out_dir
  else if Re.matches _BLOB_RE uri then
    _download_blob uri out_dir ;;; ret out_dir
  else if is_local then _download_local uri (Some out_dir)
  else if Re.matches _URI_RE uri then _download_from_uri uri out_dir
  else if Py.startswith uri MODEL_MOUNT_DIRS then ret out_dir
  else raise (UnrecognizedScheme uri).

Definition download (uri : string) (out_dir : option string) : M string :=
  ex <- Fs.exists_path uri ;;
  let is_local := Py.startswith uri _LOCAL_PREFIX || ex in
  match out_dir with
  | None =>
      if is_local then _download_local uri None
      else out_dir <- Fs.mkdtemp w ;; dispatch uri out_dir is_local
  | Some out_dir =>
      ex_out <- Fs.exists_path out_dir ;;
      (if negb ex_out then Fs.mkdir out_dir else ret tt) ;;;
      dispatch uri out_dir is_local
  end.

End WithWorld.

End Storage.

(** ** The classifier and the content-type rule, as the spec words them *)

Inductive scheme_kind : Type :=
| ObjectStoreA
| ObjectStoreB
| BlobStore
| LocalFile
| GenericHttp
| ManagedMount
| Unknown.

(** Section 4.1, step 4: backend A ([s3://]), backend B ([gs://]), the blob
    host pattern, local, the generic URI pattern, the managed mount. *)
Definition classify (mount uri : string) (is_local : bool) : scheme_kind :=
  if Py.startswith uri _S3_PREFIX then ObjectStoreA
  else if Py.startswith uri _GCS_PREFIX then ObjectStoreB
  else if Re.matches _BLOB_RE uri then BlobStore
  else if is_local then LocalFile
  else if Re.matches _URI_RE uri then GenericHttp
  else if Py.startswith uri mount then ManagedMount
  else Unknown.

(** Section 4.1, step 1. *)
Definition is_local_uri (fs : gmap string node) (uri : string) : bool :=
  Py.startswith uri _LOCAL_PREFIX || Fs.exists_ fs uri.



(** [http://host], [https://host], [http://host/] and [https://host/]. *)
Definition bare_host_uri (secure trailing : bool) (host : string) : string :=
  (if secure then "https://" else "http://") ++ host
  ++ (if trailing then "/" else "").



(** [after_slashes s n]: [s] has [n] slashes and at least one character
    after the [n]-th. *)
Fixpoint after_slashes (s : string) (n : nat) : bool :=
  match s with
  | EmptyString => false
  | String c s' =>
      match n with
      | O => true
      | S n' => if Py.ascii_eqb "/" c then after_slashes s' n' else after_slashes s' n
      end
  end.

(** [keeps p m]: a run of [m] does not make the path [p] disappear. *)
Definition keeps {A} (p : string) (m : M A) : Prop :=
  forall st r st',
    m st = (r, st') ->
    Fs.exists_ (files st) p = true -> Fs.exists_ (files st') p = true.

(** [returns_only a m]: when [m] returns, it returns [a]. *)
Definition returns_only {A} (a : A) (m : M A) : Prop :=
  forall st d st', m st = (Ok d, st') -> d = a.


(** Where [_download_blob] puts a blob (lines 158 to 166). *)
Definition blob_target (prefix out_dir blob_name : string) : string :=
  if Py.has_char "/" blob_name then
    let '(head, tail) := OsPath.split blob_name in
    let head := Py.drop (String.length prefix) head in
    let head := if Py.startswith head "/" then Py.drop 1 head else head in
    OsPath.join (OsPath.join out_dir head) tail
  else OsPath.join out_dir blob_name.

Definition blob_fetches (container prefix out_dir : string) (blobs : list blob)
    : list event :=
  List.map (fun b => AzureGetBlobToPath container (name b)
                       (blob_target prefix out_dir (name b))) blobs.

(** The four settings of the service principal are all there. *)
Definition azure_credentials_set (w : world) : bool :=
  negb (String.eqb (getenv w "AZ_TENANT_ID" "") "")
  && negb (String.eqb (getenv w "AZ_CLIENT_ID" "") "")
  && negb (String.eqb (getenv w "AZ_CLIENT_SECRET" "") "")
  && negb (String.eqb (getenv w "AZ_SUBSCRIPTION_ID" "") "").



(** ** Concrete worlds, used to run the module on examples *)

Module Examples.

Definition std_types_map : gmap string string :=
  {[ ".tar" := "application/x-tar"; ".zip" := "application/zip";
     ".json" := "application/json" ]}.

Definition json_loads_flat (s : string) : result headers :=
  if String.eqb s "{}" then Ok [] else Raise (ExternalError "json.JSONDecodeError").

Definition glob_exact (fs : gmap string node) (pattern : string) : list string :=
  if Fs.exists_ fs pattern then [pattern] else [].

(** A world with an empty environment and the given remote services. *)
Definition make_world (get : string -> headers -> result response)
    (s3 : list s3_object) (gcs : string -> list blob) : world :=
  {| environ := ∅;
     types_map := std_types_map;
     json_loads := json_loads_flat;
     glob := glob_exact;
     mkdtemp_name := fun _ => "/tmp/tmpdir";
     requests_get := get;
     minio_list_objects := fun _ _ _ => Ok s3;
     gcs_default_credentials := true;
     gcs_list_blobs := fun _ _ prefix => Ok (gcs prefix);
     azure_list_blobs := fun _ _ _ _ => Ok [];
     adal_acquire_token := fun _ _ _ _ => Raise (ExternalError "adal.AdalError") |}.

Definition no_response : string -> headers -> result response :=
  fun _ _ => Raise (ExternalError "requests.ConnectionError").

Definition offline : world := make_world no_response [] (fun _ => []).

(** A bucket [foo] whose folder [bar] holds nothing but its directory
    marker, as backend A and as backend B list it. *)
Definition s3_marker : s3_object :=
  {| object_name := "bar/"; is_dir := true; s3_body := Raw "" |}.

Definition gcs_marker : blob := {| name := "bar/"; blob_body := Raw "" |}.

Definition under_bar (blobs : list blob) (prefix : string) : list blob :=
  if String.eqb prefix "bar/" then blobs else [].


(** The folder [bar] with its marker, a blob named by one space, and two
    model files. *)
Definition gcs_blank : blob := {| name := "bar/ "; blob_body := Raw "blank" |}.
Definition gcs_model : blob := {| name := "bar/a/model.pth"; blob_body := Raw "w" |}.
Definition s3_exact : s3_object :=
  {| object_name := "bar"; is_dir := false; s3_body := Raw "exact" |}.
Definition s3_model : s3_object :=
  {| object_name := "bar/a/model.pth"; is_dir := false; s3_body := Raw "w" |}.

Definition with_models : world :=
  make_world no_response [s3_exact; s3_marker; s3_model]
    (under_bar [gcs_marker; gcs_blank; gcs_model]).

Definition default_client : minio_client :=
  {| endpoint := "s3.amazonaws.com"; access_key := ""; secret_key := "";
     region := ""; secure := false |}.


Definition mount_dirs : string := "/mnt/models".

(** A file system with a root, [/out] and one model file. *)
Definition disk : state :=
  {| files := {[ "/" := Dir; "/out" := Dir; "/models" := Dir;
                 "/models/model.pth" := File (Raw "weights") ]};
     trace := [] |}.

(** A blob account: [anon] is what a listing without token gets, [auth]
    what a listing with a token gets, [adal] what the identity service
    answers. *)
Definition with_azure (env : gmap string string) (anon : result (list blob))
    (auth : string -> result (list blob)) (adal : result string) : world :=
  {| environ := env;
     types_map := std_types_map;
     json_loads := json_loads_flat;
     glob := glob_exact;
     mkdtemp_name := fun _ => "/tmp/tmpdir";
     requests_get := no_response;
     minio_list_objects := fun _ _ _ => Ok [];
     gcs_default_credentials := true;
     gcs_list_blobs := fun _ _ _ => Ok [];
     azure_list_blobs :=
       fun _ token _ _ =>
         match token with None => anon | Some t => auth t end;
     adal_acquire_token := fun _ _ _ _ => adal |}.

Definition azure_model : blob :=
  {| name := "models/a/model.pth"; blob_body := Raw "w" |}.
Definition azure_readme : blob := {| name := "readme"; blob_body := Raw "r" |}.

Definition forbidden : result (list blob) :=
  Raise (ExternalError "azure.common.AzureHttpError").

(** Tenant, client and secret are set, the subscription is not. *)
Definition env_no_subscription : gmap string string :=
  {[ "AZ_TENANT_ID" := "tenant"; "AZ_CLIENT_ID" := "client";
     "AZ_CLIENT_SECRET" := "secret" ]}.

Definition env_service_principal : gmap string string :=
  <["AZ_SUBSCRIPTION_ID" := "sub"]> env_no_subscription.

Definition blob_uri : string :=
  "https://acct.blob.core.windows.net/container/models".

(** Private buckets, reached without credentials. *)
Definition denied : world :=
  {| environ := ∅;
     types_map := std_types_map;
     json_loads := json_loads_flat;
     glob := glob_exact;
     mkdtemp_name := fun _ => "/tmp/tmpdir";
     requests_get := no_response;
     minio_list_objects := fun _ _ _ => Raise (ExternalError "minio.error.AccessDenied");
     gcs_default_credentials := false;
     gcs_list_blobs :=
       fun _ _ _ => Raise (ExternalError "google.cloud.exceptions.Forbidden");
     azure_list_blobs := fun _ _ _ _ => forbidden;
     adal_acquire_token := fun _ _ _ _ => Raise (ExternalError "adal.AdalError") |}.

End Examples.

(** * Properties *)

(** ** Strings *)

Lemma ascii_eqb_refl (c : ascii) : Py.ascii_eqb c c = true.
Proof. apply Ascii.eqb_refl. Qed.

Lemma ascii_eqb_eq (a b : ascii) : Py.ascii_eqb a b = true <-> a = b.
Proof. apply Ascii.eqb_eq. Qed.

Lemma partition_absent (c : ascii) (s : string) :
  Py.has_char c s = false -> Py.partition c s = (s, false, EmptyString).
Proof.
  induction s as [|d s IH]; simpl; [reflexivity|].
  intros H. apply orb_false_elim in H as [Hd Hs].
  rewrite Hd, (IH Hs). reflexivity.
Qed.

Lemma split1_absent (c : ascii) (s : string) :
  Py.has_char c s = false -> Py.split1 c s = [s].
Proof. intros H. unfold Py.split1. rewrite (partition_absent _ _ H). reflexivity. Qed.

Lemma startswith_app (p s : string) : Py.startswith (p ++ s) p = true.
Proof. induction p as [|c p IH]; simpl; [reflexivity|]. now rewrite ascii_eqb_refl. Qed.

Lemma drop_app (p s : string) : Py.drop (String.length p) (p ++ s) = s.
Proof. induction p as [|c p IH]; simpl; auto. Qed.

(** Taking a prefix off with [replace(prefix, "", 1)]. *)
Lemma replace1_eq (s old new : string) :
  Py.replace1 s old new =
  if Py.startswith s old then new ++ Py.drop (String.length old) s
  else match s with
       | EmptyString => EmptyString
       | String c s' => String c (Py.replace1 s' old new)
       end.
Proof. destruct s; reflexivity. Qed.

Lemma replace1_prefix (p s : string) : Py.replace1 (p ++ s) p "" = s.
Proof. rewrite replace1_eq, startswith_app, drop_app. reflexivity. Qed.

Lemma str_app_cons (x : ascii) (a b : string) : String x a ++ b = String x (a ++ b).
Proof. reflexivity. Qed.

Lemma str_app_nil (b : string) : "" ++ b = b.
Proof. reflexivity. Qed.

Lemma str_app_assoc (a b c : string) : (a ++ b) ++ c = a ++ (b ++ c).
Proof.
  induction a as [|x a IH]; rewrite ?str_app_cons, ?str_app_nil; [reflexivity|].
  f_equal. exact IH.
Qed.

Lemma str_app_length (a b : string) :
  String.length (a ++ b) = String.length a + String.length b.
Proof.
  induction a as [|x a IH]; rewrite ?str_app_cons, ?str_app_nil; simpl; [reflexivity|].
  f_equal. exact IH.
Qed.


Lemma has_char_app (c : ascii) (a b : string) :
  Py.has_char c (a ++ b) = Py.has_char c a || Py.has_char c b.
Proof.
  induction a as [|x a IH]; rewrite ?str_app_cons, ?str_app_nil; simpl; [reflexivity|].
  rewrite <- orb_assoc. f_equal. exact IH.
Qed.

Lemma rpartition_absent (c : ascii) (s : string) :
  Py.has_char c s = false -> Py.rpartition c s = (EmptyString, false, s).
Proof.
  induction s as [|d s IH]; simpl; [reflexivity|].
  intros H. apply orb_false_elim in H as [Hd Hs].
  rewrite (IH Hs), Hd. reflexivity.
Qed.

(** [rpartition] splits at the last separator. *)
Lemma rpartition_last (c : ascii) (a b : string) :
  Py.has_char c b = false -> Py.rpartition c (a ++ String c b) = (a, true, b).
Proof.
  intros Hb. induction a as [|d a IH]; rewrite ?str_app_cons, ?str_app_nil; simpl.
  - now rewrite (rpartition_absent _ _ Hb), ascii_eqb_refl.
  - now rewrite IH.
Qed.




Lemma rpartition_app (c : ascii) (s t : string) :
  Py.has_char c t = false ->
  Py.rpartition c (s ++ t)
  = let '(a, found, b) := Py.rpartition c s in (a, found, b ++ t).
Proof.
  intros Ht. induction s as [|d s IH]; rewrite ?str_app_cons, ?str_app_nil.
  - now rewrite (rpartition_absent _ _ Ht).
  - cbn [Py.rpartition]. rewrite IH.
    destruct (Py.rpartition c s) as [[a found] b]. destruct found; [reflexivity|].
    destruct (Py.ascii_eqb c d); reflexivity.
Qed.

Lemma all_dots_app_r (a b : string) :
  OsPath.all_dots b = false -> OsPath.all_dots (a ++ b) = false.
Proof.
  unfold OsPath.all_dots. intros Hb.
  induction a as [|x a IH]; rewrite ?str_app_cons, ?str_app_nil;
    cbn [Py.lstrip_by Py.is_empty]; [exact Hb|].
  destruct (Py.ascii_eqb "." x); [exact IH|reflexivity].
Qed.

(** The extension of a path to which [.mid.e] has been appended is [.e]. *)
Lemma splitext_suffix (base mid e : string) :
  Py.has_char "/" (String "." mid ++ String "." e) = false ->
  Py.has_char "." e = false ->
  OsPath.all_dots (String "." mid) = false ->
  snd (OsPath.splitext (base ++ String "." mid ++ String "." e)) = String "." e.
Proof.
  intros Hslash Hdot Hmid. unfold OsPath.splitext, OsPath.basename.
  rewrite (rpartition_app _ _ _ Hslash).
  destruct (Py.rpartition "/" base) as [[a found] b].
  replace (b ++ String "." mid ++ String "." e)
    with ((b ++ String "." mid) ++ String "." e) by apply str_app_assoc.
  rewrite (rpartition_last _ _ _ Hdot), (all_dots_app_r _ _ Hmid). reflexivity.
Qed.

(** The loop over [suffix_map] has stopped after one round: two units of
    fuel give what any larger amount gives. *)
Lemma expand_suffix_fuel (n : nat) (base ext : string) :
  Mimetypes.expand_suffix (S (S n)) base ext = Mimetypes.expand_suffix 2 base ext.
Proof.
  cbn [Mimetypes.expand_suffix].
  destruct (Mimetypes.assoc ext Mimetypes.suffix_map) as [long|] eqn:Hlong;
    [|reflexivity].
  assert (Hext : exists mid e,
            long = String "." mid ++ String "." e
            /\ Py.has_char "/" (String "." mid ++ String "." e) = false
            /\ Py.has_char "." e = false
            /\ OsPath.all_dots (String "." mid) = false
            /\ Mimetypes.assoc (String "." e) Mimetypes.suffix_map = None).
  { unfold Mimetypes.suffix_map in Hlong. cbn [Mimetypes.assoc] in Hlong.
    repeat match type of Hlong with
           | (if ?b then _ else _) = _ => destruct b
           end;
      try discriminate; injection Hlong as <-.
    - exists "svg", "gz". repeat split.
    - exists "tar", "gz". repeat split.
    - exists "tar", "gz". repeat split.
    - exists "tar", "gz". repeat split.
    - exists "tar", "bz2". repeat split.
    - exists "tar", "xz". repeat split. }
  destruct Hext as (mid & e & -> & Hslash & Hdot & Hmid & Hnone).
  pose proof (splitext_suffix base mid e Hslash Hdot Hmid) as Hsnd.
  destruct (OsPath.splitext (base ++ String "." mid ++ String "." e)) as [base' ext'].
  cbn [snd] in Hsnd. subst ext'. rewrite Hnone.
  destruct n; cbn [Mimetypes.expand_suffix]; rewrite ?Hnone; reflexivity.
Qed.



(** ** The effect monad *)

Lemma bind_inv {A B} (m : M A) (k : A -> M B) (st st' : state) (r : result B) :
  bind m k st = (r, st') ->
  (exists a st1, m st = (Ok a, st1) /\ k a st1 = (r, st'))
  \/ (exists e, m st = (Raise e, st') /\ r = Raise e).
Proof.
  unfold bind. destruct (m st) as [[a|e] st1]; intros H.
  - left. eauto.
  - right. inversion H; subst. eauto.
Qed.

(** ** File-system primitives, run *)

Lemma write_file_run (p : string) (c : content) (st : state) :
  Fs.write_file p c st =
  if Fs.isdir (files st) p then (Raise (OSError "IsADirectoryError"), st)
  else (Ok tt, {| files := <[p := File c]> (files st); trace := trace st |}).
Proof.
  unfold Fs.write_file, bind, get_files, raise, put_files.
  destruct (Fs.isdir (files st) p); reflexivity.
Qed.

Lemma mkdir_files_raise (fs : gmap string node) (p : string) (e : exn) :
  Fs.mkdir_files fs p = Raise e -> exists kind, e = OSError kind.
Proof.
  unfold Fs.mkdir_files.
  repeat match goal with |- context [if ?b then _ else _] => destruct b end;
    intros H; inversion H; eauto.
Qed.

Lemma mkdir_exist_ok_raise (fs : gmap string node) (p : string) (exist_ok : bool)
    (e : exn) :
  Fs.mkdir_exist_ok fs p exist_ok = Raise e -> exists kind, e = OSError kind.
Proof.
  unfold Fs.mkdir_exist_ok. destruct (Fs.mkdir_files fs p) eqn:Hm; [discriminate|].
  apply mkdir_files_raise in Hm. destruct (exist_ok && Fs.isdir fs p); [discriminate|].
  intros H; inversion H; subst; exact Hm.
Qed.

Lemma makedirs_files_raise (fuel : nat) (fs : gmap string node) (p : string)
    (exist_ok : bool) (e : exn) :
  Fs.makedirs_files fuel fs p exist_ok = Raise e -> exists kind, e = OSError kind.
Proof.
  revert fs p e.
  induction fuel as [|fuel IH]; intros fs p e; cbn [Fs.makedirs_files];
    destruct (OsPath.split p) as [head tail];
    destruct (if Py.is_empty tail then OsPath.split head else (head, tail)) as [h t];
    destruct (negb (Py.is_empty h) && negb (Py.is_empty t) && negb (Fs.exists_ fs h));
    try apply mkdir_exist_ok_raise.
  - intros H; inversion H; eauto.
  - destruct (Fs.makedirs_files fuel fs h exist_ok) as [fs1|e1] eqn:Hrec.
    + destruct (String.eqb t "."); [discriminate|]. apply mkdir_exist_ok_raise.
    + destruct (Fs.is_file_exists_error e1).
      * destruct (String.eqb t "."); [discriminate|]. apply mkdir_exist_ok_raise.
      * intros H; inversion H; subst. eapply IH; eassumption.
Qed.

Lemma rpartition_spec (c : ascii) (s : string) :
  match Py.rpartition c s with
  | (a, true, b) => s = a ++ String c b
  | (a, false, b) => a = "" /\ b = s
  end.
Proof.
  induction s as [|d s IH]; cbn [Py.rpartition]; [auto|].
  destruct (Py.rpartition c s) as [[a found] b]. destruct found.
  - rewrite str_app_cons. now rewrite <- IH.
  - destruct IH as [-> ->]. destruct (Py.ascii_eqb c d) eqn:Hc; [|auto].
    apply ascii_eqb_eq in Hc. now subst d.
Qed.

Lemma rstrip_by_length (f : ascii -> bool) (s : string) :
  String.length (Py.rstrip_by f s) <= String.length s.
Proof.
  induction s as [|d s IH]; cbn [Py.rstrip_by String.length]; [lia|].
  destruct (Py.rstrip_by f s) as [|x r].
  - destruct (f d); cbn [String.length]; lia.
  - cbn [String.length] in *. lia.
Qed.

(** The two parts of [os.path.split] are no longer than the path. *)
Lemma split_length (p : string) :
  String.length (fst (OsPath.split p)) + String.length (snd (OsPath.split p))
  <= String.length p.
Proof.
  unfold OsPath.split. pose proof (rpartition_spec "/" p) as Hp.
  destruct (Py.rpartition "/" p) as [[a found] tail]. destruct found.
  - subst p. rewrite str_app_length. cbn [fst snd String.length].
    assert (Hhead : String.length (a ++ "/") = String.length a + 1)
      by (rewrite str_app_length; reflexivity).
    destruct (OsPath.all_slashes (a ++ "/")).
    + lia.
    + pose proof (rstrip_by_length (Py.ascii_eqb "/") (a ++ "/")). lia.
  - destruct Hp as [-> ->]. change (OsPath.all_slashes "") with true.
    cbn [fst snd String.length]. lia.
Qed.

(** The bound on the recursion of [makedirs] is never reached when the
    fuel is the length of the path, or more. *)
Lemma makedirs_files_fuel (fuel : nat) :
  forall (fs : gmap string node) (name : string) (exist_ok : bool),
  String.length name <= fuel ->
  Fs.makedirs_files fuel fs name exist_ok <> Raise (OSError "RecursionError").
Proof.
  assert (Hlast : forall fs name exist_ok,
            Fs.mkdir_exist_ok fs name exist_ok <> Raise (OSError "RecursionError")).
  { intros fs name exist_ok. unfold Fs.mkdir_exist_ok, Fs.mkdir_files.
    repeat match goal with |- context [if ?b then _ else _] => destruct b end;
      discriminate. }
  induction fuel as [|fuel IH]; intros fs name exist_ok Hlen;
    cbn [Fs.makedirs_files];
    pose proof (split_length name) as Hsplit;
    destruct (OsPath.split name) as [head tail]; cbn [fst snd] in Hsplit.
  - assert (name = "") by (destruct name; [reflexivity|cbn [String.length] in Hlen; lia]).
    subst name. destruct head; [|cbn [String.length] in Hsplit; lia].
    destruct tail; [|cbn [String.length] in Hsplit; lia].
    cbn. apply Hlast.
  - assert (Hhead : forall h t,
              (if Py.is_empty tail then OsPath.split head else (head, tail)) = (h, t) ->
              negb (Py.is_empty t) = true -> String.length h <= fuel).
    { intros h t Hht Ht. destruct tail as [|c tail]; cbn [Py.is_empty] in Hht.
      - pose proof (split_length head) as Hs2. rewrite Hht in Hs2. cbn [fst snd] in Hs2.
        destruct t; [discriminate|]. cbn [String.length] in *. lia.
      - injection Hht as <- <-. cbn [String.length] in *. lia. }
    destruct (if Py.is_empty tail then OsPath.split head else (head, tail)) as [h t].
    destruct (negb (Py.is_empty h)) eqn:Hh; cbn [andb]; [|apply Hlast].
    destruct (negb (Py.is_empty t)) eqn:Ht; cbn [andb]; [|apply Hlast].
    destruct (negb (Fs.exists_ fs h)); [|apply Hlast].
    specialize (IH fs h exist_ok (Hhead h t eq_refl Ht)).
    destruct (Fs.makedirs_files fuel fs h exist_ok) as [fs1|e].
    + destruct (String.eqb t "."); [discriminate|apply Hlast].
    + destruct (Fs.is_file_exists_error e).
      * destruct (String.eqb t "."); [discriminate|apply Hlast].
      * exact IH.
Qed.

Lemma makedirs_run (p : string) (exist_ok : bool) (st : state) :
  Fs.makedirs p exist_ok st =
  match Fs.makedirs_files (String.length p) (files st) p exist_ok with
  | Ok fs' => (Ok tt, {| files := fs'; trace := trace st |})
  | Raise e => (Raise e, st)
  end.
Proof.
  unfold Fs.makedirs, bind, get_files, lift, put_files.
  destruct (Fs.makedirs_files _ _ _ _); reflexivity.
Qed.

(** ** The listing loops of the object-store backends *)

Lemma s3_step_spec (bn bp temp : string) (obj : s3_object)
    (st st' : state) (r : result unit) :
  Storage.s3_step bn bp temp obj st = (r, st') ->
  match r with
  | Ok _ => trace st' = (trace st ++ s3_fetches bn bp temp [obj])%list
  | Raise e => (exists kind, e = OSError kind) /\ trace st' = trace st
  end.
Proof.
  unfold Storage.s3_step, s3_fetches, s3_target, relative_key. simpl.
  destruct (is_dir obj); simpl.
  - unfold ret. intros H; inversion H; subst. now rewrite app_nil_r.
  - unfold Storage.fget_object, bind. rewrite write_file_run.
    match goal with |- context [Fs.isdir ?a ?b] => destruct (Fs.isdir a b) end.
    + intros H; inversion H; subst. eauto.
    + unfold emit. intros H; inversion H; subst. reflexivity.
Qed.

Lemma s3_loop_spec (bn bp temp : string) (objects : list s3_object) :
  forall (count : nat) (st st' : state) (r : result nat),
  Storage.s3_loop bn bp temp objects count st = (r, st') ->
  match r with
  | Ok n => n = count + List.length objects
            /\ trace st' = (trace st ++ s3_fetches bn bp temp objects)%list
  | Raise e => (exists kind, e = OSError kind) /\ exists tl, trace st' = (trace st ++ tl)%list
  end.
Proof.
  induction objects as [|obj rest IH]; intros count st st' r; cbn [Storage.s3_loop].
  - unfold ret. intros H; inversion H; subst. split; [simpl; lia|].
    now rewrite app_nil_r.
  - intros H. apply bind_inv in H as [(u & st1 & Hstep & Hrest)|(e & Hstep & ->)].
    + apply s3_step_spec in Hstep. apply IH in Hrest.
      destruct r as [n|e].
      * destruct Hrest as [-> Htr]. split; [simpl; lia|].
        rewrite Htr, Hstep, <- app_assoc. f_equal.
        unfold s3_fetches. simpl. destruct (is_dir obj); reflexivity.
      * destruct Hrest as [Hk [tl Htr]]. split; [exact Hk|].
        rewrite Htr, Hstep, <- app_assoc. eauto.
    + apply s3_step_spec in Hstep. destruct Hstep as [Hk Htr].
      split; [exact Hk|]. exists []. now rewrite app_nil_r.
Qed.

Lemma gcs_step_spec (bp temp : string) (b : blob) (st st' : state) (r : result unit) :
  Storage.gcs_step bp temp b st = (r, st') ->
  match r with
  | Ok _ => trace st' = (trace st ++ gcs_fetches bp temp [b])%list
  | Raise e => (exists kind, e = OSError kind) /\ trace st' = trace st
  end.
Proof.
  unfold Storage.gcs_step, gcs_fetches, gcs_kept. cbn [List.filter List.map].
  fold (relative_key bp (name b)).
  set (key := relative_key bp (name b)).
  intros H. apply bind_inv in H as [(u & st1 & Hdirs & Hget)|(e & Hdirs & ->)].
  - assert (Htr1 : trace st1 = trace st).
    { destruct (Py.has_char "/" key).
      - unfold bind, Fs.isdir_path, bind, get_files, ret in Hdirs.
        destruct (negb _) in Hdirs.
        + rewrite makedirs_run in Hdirs.
          destruct (Fs.makedirs_files _ _ _ _); inversion Hdirs; reflexivity.
        + inversion Hdirs; reflexivity.
      - inversion Hdirs; reflexivity. }
    destruct (negb (String.eqb (Py.strip key) "")); simpl.
    + unfold Storage.download_to_filename, bind in Hget. rewrite write_file_run in Hget.
      destruct (Fs.isdir _ _).
      * inversion Hget; subst. eauto.
      * unfold emit in Hget. inversion Hget; subst. simpl. now rewrite Htr1.
    + inversion Hget; subst. now rewrite app_nil_r.
  - destruct (Py.has_char "/" key).
    + unfold bind, Fs.isdir_path, bind, get_files, ret in Hdirs.
      destruct (negb _) in Hdirs.
      * rewrite makedirs_run in Hdirs.
        destruct (Fs.makedirs_files _ _ _ _) eqn:Hm; inversion Hdirs; subst.
        apply makedirs_files_raise in Hm. auto.
      * inversion Hdirs.
    + inversion Hdirs.
Qed.

Lemma gcs_loop_spec (bp temp : string) (blobs : list blob) :
  forall (count : nat) (st st' : state) (r : result nat),
  Storage.gcs_loop bp temp blobs count st = (r, st') ->
  match r with
  | Ok n => n = count + List.length blobs
            /\ trace st' = (trace st ++ gcs_fetches bp temp blobs)%list
  | Raise e => (exists kind, e = OSError kind)
               /\ exists tl, trace st' = (trace st ++ tl)%list
  end.
Proof.
  induction blobs as [|b rest IH]; intros count st st' r; cbn [Storage.gcs_loop].
  - unfold ret. intros H; inversion H; subst. split; [simpl; lia|].
    now rewrite app_nil_r.
  - intros H. apply bind_inv in H as [(u & st1 & Hstep & Hrest)|(e & Hstep & ->)].
    + apply gcs_step_spec in Hstep. apply IH in Hrest.
      destruct r as [n|e].
      * destruct Hrest as [-> Htr]. split; [simpl; lia|].
        rewrite Htr, Hstep, <- app_assoc. f_equal.
        unfold gcs_fetches. simpl. destruct (gcs_kept bp b); reflexivity.
      * destruct Hrest as [Hk [tl Htr]]. split; [exact Hk|].
        rewrite Htr, Hstep, <- app_assoc. eauto.
    + apply gcs_step_spec in Hstep. destruct Hstep as [Hk Htr].
      split; [exact Hk|]. exists []. now rewrite app_nil_r.
Qed.

(** What a run of [_download_s3] can be, given the client and the listing. *)
Lemma download_s3_spec (w : world) (uri temp : string) (client : minio_client)
    (objects : list s3_object) (st st' : state) (r : result unit) :
  Storage._create_minio_client w = Ok client ->
  minio_list_objects w client (bucket_name_of uri _S3_PREFIX)
    (bucket_path_of uri _S3_PREFIX) = Ok objects ->
  Storage._download_s3 w uri temp st = (r, st') ->
  let listing := MinioListObjects client (bucket_name_of uri _S3_PREFIX)
                   (bucket_path_of uri _S3_PREFIX) in
  match r with
  | Ok _ =>
      objects <> []
      /\ trace st' = (trace st ++ listing
                        :: s3_fetches (bucket_name_of uri _S3_PREFIX)
                             (bucket_path_of uri _S3_PREFIX) temp objects)%list
  | Raise e =>
      (objects = [] /\ e = ArtifactNotFound uri \/
       objects <> [] /\ exists kind, e = OSError kind)
      /\ exists tl, trace st' = (trace st ++ listing :: tl)%list
  end.
Proof.
  intros Hclient Hlist.
  unfold Storage._download_s3.
  fold (bucket_args uri _S3_PREFIX).
  fold (bucket_name_of uri _S3_PREFIX). fold (bucket_path_of uri _S3_PREFIX).
  rewrite Hclient. unfold bind at 1. unfold lift at 1.
  unfold bind at 1. unfold emit at 1. rewrite Hlist.
  unfold bind at 1. unfold lift at 1.
  intros H. apply bind_inv in H as [(n & st1 & Hloop & Hfin)|(e & Hloop & ->)].
  - apply s3_loop_spec in Hloop. destruct Hloop as [-> Htr]. simpl in Htr.
    destruct objects as [|o rest]; simpl in Hfin.
    + inversion Hfin; subst. split; [left; auto|].
      exists []. rewrite Htr. now rewrite app_nil_r.
    + inversion Hfin; subst. split; [discriminate|].
      rewrite Htr, <- app_assoc. reflexivity.
  - assert (Hne : objects <> []) by (intros ->; discriminate Hloop).
    apply s3_loop_spec in Hloop. destruct Hloop as [Hk [tl Htr]]. simpl in Htr.
    split; [right; auto|].
    exists tl. rewrite Htr, <- app_assoc. reflexivity.
Qed.

(** The first thing [_download_gcs] does is the listing call, whatever the
    service answers. *)
Lemma download_gcs_lists_first (w : world) (uri temp : string) (st : state) :
  Storage._download_gcs w uri temp st =
  bind (lift (gcs_list_blobs w (negb (gcs_default_credentials w))
                (bucket_name_of uri _GCS_PREFIX)
                (with_trailing_slash (bucket_path_of uri _GCS_PREFIX))))
    (fun blobs =>
       bind (Storage.gcs_loop (bucket_path_of uri _GCS_PREFIX) temp blobs 0)
         (fun count => if Nat.eqb count 0 then raise (ArtifactNotFound uri) else ret tt))
    {| files := files st;
       trace := trace st ++ [GcsListBlobs (negb (gcs_default_credentials w))
                               (bucket_name_of uri _GCS_PREFIX)
                               (with_trailing_slash (bucket_path_of uri _GCS_PREFIX))] |}.
Proof.
  unfold Storage._download_gcs.
  fold (bucket_args uri _GCS_PREFIX).
  fold (bucket_name_of uri _GCS_PREFIX). fold (bucket_path_of uri _GCS_PREFIX).
  unfold with_trailing_slash.
  destruct (Py.endswith_char (bucket_path_of uri _GCS_PREFIX) "/"); reflexivity.
Qed.

(** What a run of [_download_gcs] can be, given the listing. *)
Lemma download_gcs_spec (w : world) (uri temp : string) (blobs : list blob)
    (st st' : state) (r : result unit) :
  gcs_list_blobs w (negb (gcs_default_credentials w)) (bucket_name_of uri _GCS_PREFIX)
    (with_trailing_slash (bucket_path_of uri _GCS_PREFIX)) = Ok blobs ->
  Storage._download_gcs w uri temp st = (r, st') ->
  let listing := GcsListBlobs (negb (gcs_default_credentials w))
                   (bucket_name_of uri _GCS_PREFIX)
                   (with_trailing_slash (bucket_path_of uri _GCS_PREFIX)) in
  match r with
  | Ok _ =>
      blobs <> []
      /\ trace st' = (trace st ++ listing
                        :: gcs_fetches (bucket_path_of uri _GCS_PREFIX) temp blobs)%list
  | Raise e =>
      (blobs = [] /\ e = ArtifactNotFound uri \/
       blobs <> [] /\ exists kind, e = OSError kind)
      /\ exists tl, trace st' = (trace st ++ listing :: tl)%list
  end.
Proof.
  intros Hlist. rewrite download_gcs_lists_first, Hlist.
  unfold bind at 1. unfold lift at 1.
  intros H. apply bind_inv in H as [(n & st1 & Hloop & Hfin)|(e & Hloop & ->)].
  - apply gcs_loop_spec in Hloop. destruct Hloop as [-> Htr]. simpl in Htr.
    destruct blobs as [|o rest]; simpl in Hfin.
    + inversion Hfin; subst. split; [left; auto|].
      exists []. rewrite Htr. now rewrite app_nil_r.
    + inversion Hfin; subst. split; [discriminate|].
      rewrite Htr, <- app_assoc. reflexivity.
  - assert (Hne : blobs <> []) by (intros ->; discriminate Hloop).
    apply gcs_loop_spec in Hloop. destruct Hloop as [Hk [tl Htr]]. simpl in Htr.
    split; [right; auto|].
    exists tl. rewrite Htr, <- app_assoc. reflexivity.
Qed.



Lemma bucket_args_prefix (p rest : string) :
  bucket_args (p ++ rest) p = Py.split1 "/" rest.
Proof. unfold bucket_args. now rewrite replace1_prefix. Qed.

(** ** The generic HTTP backend *)
















(** ** The dispatch of [download] and the classifier of the spec *)

Lemma s3_is_not_gcs (uri : string) :
  Py.startswith uri _S3_PREFIX = true -> Py.startswith uri _GCS_PREFIX = false.
Proof.
  destruct uri as [|c u]; [discriminate|].
  unfold _S3_PREFIX, _GCS_PREFIX. cbn [Py.startswith].
  intros H. apply andb_true_iff in H as [Hc _]. apply ascii_eqb_eq in Hc. subst c.
  reflexivity.
Qed.

(** The [if]/[elif] chain of [download] takes the branch the classifier of
    the spec names, although it tests [gs://] before [s3://]. *)
Lemma dispatch_classify (w : world) (mount uri out_dir : string) (is_local : bool) :
  Storage.dispatch w mount uri out_dir is_local =
  match classify mount uri is_local with
  | ObjectStoreA => Storage._download_s3 w uri out_dir ;;; ret out_dir
  | ObjectStoreB => Storage._download_gcs w uri out_dir ;;; ret out_dir
  | BlobStore => Storage._download_blob w uri out_dir ;;; ret out_dir
  | LocalFile => Storage._download_local w uri (Some out_dir)
  | GenericHttp => Storage._download_from_uri w uri out_dir
  | ManagedMount => ret out_dir
  | Unknown => raise (UnrecognizedScheme uri)
  end.
Proof.
  unfold Storage.dispatch, classify.
  destruct (Py.startswith uri _S3_PREFIX) eqn:Hs3.
  - now rewrite (s3_is_not_gcs _ Hs3).
  - destruct (Py.startswith uri _GCS_PREFIX); [reflexivity|].
    destruct (Re.matches _BLOB_RE uri); [reflexivity|].
    destruct is_local; [reflexivity|].
    destruct (Re.matches _URI_RE uri); [reflexivity|].
    destruct (Py.startswith uri mount); reflexivity.
Qed.

(** [download] with a destination that exists goes straight to the
    dispatch. *)
Lemma download_existing_dir (w : world) (mount uri out_dir : string) (st : state) :
  Fs.exists_ (files st) out_dir = true ->
  Storage.download w mount uri (Some out_dir) st
  = Storage.dispatch w mount uri out_dir (is_local_uri (files st) uri) st.
Proof.
  intros Hout. unfold Storage.download, Fs.exists_path, get_files.
  unfold bind at 1 2. unfold ret at 1. unfold bind at 1 2. unfold ret at 1.
  rewrite Hout. reflexivity.
Qed.




(** ** The matcher, inverted item by item *)

Lemma match_lit (c : ascii) (rest : list Re.item) (s : string) (pos : nat)
    (opens : list nat) (caps r : list (nat * nat)) :
  Re.match_here (Re.Lit c :: rest) s pos opens caps = Some r ->
  exists s', s = String c s' /\ Re.match_here rest s' (S pos) opens caps = Some r.
Proof.
  cbn [Re.match_here]. destruct s as [|d s']; [discriminate|].
  destruct (Py.ascii_eqb c d) eqn:Hc; [|discriminate].
  apply ascii_eqb_eq in Hc. subst d. eauto.
Qed.

Lemma match_opt (c : ascii) (rest : list Re.item) (s : string) (pos : nat)
    (opens : list nat) (caps r : list (nat * nat)) :
  Re.match_here (Re.Opt c :: rest) s pos opens caps = Some r ->
  (exists s', s = String c s' /\ Re.match_here rest s' (S pos) opens caps = Some r)
  \/ Re.match_here rest s pos opens caps = Some r.
Proof.
  cbn [Re.match_here]. destruct s as [|d s']; [auto|].
  destruct (Py.ascii_eqb c d) eqn:Hc; [|auto].
  apply ascii_eqb_eq in Hc. subst d.
  destruct (Re.match_here rest s' (S pos) opens caps) eqn:Hm; [|auto].
  intros H. left. exists s'. split; [reflexivity|]. congruence.
Qed.

Lemma match_dot (rest : list Re.item) (s : string) (pos : nat)
    (opens : list nat) (caps r : list (nat * nat)) :
  Re.match_here (Re.Dot :: rest) s pos opens caps = Some r ->
  exists d s', s = String d s' /\ Re.match_here rest s' (S pos) opens caps = Some r.
Proof.
  cbn [Re.match_here]. destruct s as [|d s']; [discriminate|].
  destruct (Re.is_newline d); [discriminate|]. eauto.
Qed.

(** [.+] and [.+?] take at least one character. *)
Lemma match_plus (lazy : bool) (rest : list Re.item) (s : string) (opens : list nat)
    (caps r : list (nat * nat)) :
  forall pos,
  Re.match_here (Re.PlusDot lazy :: rest) s pos opens caps = Some r ->
  exists d a s' pos',
    s = String d a ++ s' /\ Re.match_here rest s' pos' opens caps = Some r.
Proof.
  cbn [Re.match_here].
  induction s as [|d s IH]; intros pos; [discriminate|].
  destruct (Re.is_newline d); [discriminate|].
  destruct lazy.
  - destruct (Re.match_here rest s (S pos) opens caps) eqn:Hm.
    + intros H. exists d, "", s, (S pos). split; [reflexivity|]. congruence.
    + intros H. apply IH in H as (d' & a & s' & pos' & -> & H).
      exists d, (String d' a), s', pos'. split; [reflexivity|exact H].
  - match goal with
    | |- match ?go with _ => _ end = _ -> _ => destruct go eqn:Hgo
    end.
    + intros H. injection H as ->.
      apply IH in Hgo as (d' & a & s' & pos' & -> & Hgo).
      exists d, (String d' a), s', pos'. split; [reflexivity|exact Hgo].
    + intros H. exists d, "", s, (S pos). split; [reflexivity|exact H].
Qed.

Lemma match_open (rest : list Re.item) (s : string) (pos : nat)
    (opens : list nat) (caps : list (nat * nat)) :
  Re.match_here (Re.Open :: rest) s pos opens caps
  = Re.match_here rest s pos (pos :: opens) caps.
Proof. reflexivity. Qed.

Lemma match_close (rest : list Re.item) (s : string) (pos start : nat)
    (opens : list nat) (caps : list (nat * nat)) :
  Re.match_here (Re.Close :: rest) s pos (start :: opens) caps
  = Re.match_here rest s pos opens ((start, pos) :: caps).
Proof. reflexivity. Qed.

Lemma after_slashes_fewer (s : string) :
  forall n, after_slashes s (S n) = true -> after_slashes s n = true.
Proof.
  induction s as [|c s IH]; intros n; cbn [after_slashes]; [discriminate|].
  destruct n as [|n]; [reflexivity|].
  destruct (Py.ascii_eqb "/" c); auto.
Qed.

Lemma after_slashes_cons (c : ascii) (s : string) (n : nat) :
  after_slashes s n = true -> after_slashes (String c s) n = true.
Proof.
  intros H. cbn [after_slashes]. destruct n as [|n]; [reflexivity|].
  destruct (Py.ascii_eqb "/" c); [now apply after_slashes_fewer|exact H].
Qed.

Lemma after_slashes_app (a s : string) (n : nat) :
  after_slashes s n = true -> after_slashes (a ++ s) n = true.
Proof.
  intros H. induction a as [|c a IH]; rewrite ?str_app_cons, ?str_app_nil; [exact H|].
  now apply after_slashes_cons.
Qed.

Lemma after_slashes_slash (s : string) (n : nat) :
  after_slashes (String "/" s) (S n) = after_slashes s n.
Proof. reflexivity. Qed.

(** Both patterns of the module need three slashes in the subject and a
    character after the third: the two of [://], and the one that ends the
    host part, which [(.+)] must follow. *)
Lemma uri_re_shape (s : string) (pos : nat) (r : list (nat * nat)) :
  Re.match_here (Re.compile _URI_RE) s pos [] [] = Some r -> after_slashes s 3 = true.
Proof.
  assert (Hc : Re.compile _URI_RE
               = [Re.Lit "h"; Re.Lit "t"; Re.Lit "t"; Re.Lit "p"; Re.Opt "s";
                  Re.Lit ":"; Re.Lit "/"; Re.Lit "/"; Re.Open; Re.PlusDot false;
                  Re.Close; Re.Lit "/"; Re.Open; Re.PlusDot false; Re.Close])
    by reflexivity.
  rewrite Hc. clear Hc. intros H.
  do 4 (apply match_lit in H as (? & -> & H)).
  do 4 apply after_slashes_cons.
  assert (Htail : forall t p, Re.match_here
            [Re.Lit ":"; Re.Lit "/"; Re.Lit "/"; Re.Open; Re.PlusDot false;
             Re.Close; Re.Lit "/"; Re.Open; Re.PlusDot false; Re.Close] t p [] []
            = Some r -> after_slashes t 3 = true).
  { clear. intros t p H.
    do 3 (apply match_lit in H as (? & -> & H)).
    rewrite match_open in H.
    apply match_plus in H as (d & a & t1 & p1 & -> & H).
    rewrite match_close in H. apply match_lit in H as (t2 & -> & H).
    rewrite match_open in H.
    apply match_plus in H as (d2 & a2 & t3 & p3 & -> & _).
    apply after_slashes_cons. rewrite !after_slashes_slash.
    apply after_slashes_app. rewrite after_slashes_slash. reflexivity. }
  apply match_opt in H as [(t & -> & H)|H].
  - apply after_slashes_cons. eapply Htail; eassumption.
  - eapply Htail; eassumption.
Qed.

Lemma blob_re_shape (s : string) (pos : nat) (r : list (nat * nat)) :
  Re.match_here (Re.compile _BLOB_RE) s pos [] [] = Some r -> after_slashes s 3 = true.
Proof.
  assert (Hc : Re.compile _BLOB_RE
               = [Re.Lit "h"; Re.Lit "t"; Re.Lit "t"; Re.Lit "p"; Re.Lit "s";
                  Re.Lit ":"; Re.Lit "/"; Re.Lit "/"; Re.Open; Re.PlusDot true;
                  Re.Close; Re.Dot; Re.Lit "b"; Re.Lit "l"; Re.Lit "o"; Re.Lit "b";
                  Re.Dot; Re.Lit "c"; Re.Lit "o"; Re.Lit "r"; Re.Lit "e";
                  Re.Dot; Re.Lit "w"; Re.Lit "i"; Re.Lit "n"; Re.Lit "d"; Re.Lit "o";
                  Re.Lit "w"; Re.Lit "s"; Re.Dot; Re.Lit "n"; Re.Lit "e"; Re.Lit "t";
                  Re.Lit "/"; Re.Open; Re.PlusDot false; Re.Close])
    by reflexivity.
  rewrite Hc. clear Hc. intros H.
  do 8 (apply match_lit in H as (? & -> & H)).
  rewrite match_open in H.
  apply match_plus in H as (d & a & t1 & p1 & -> & H).
  rewrite match_close in H.
  apply match_dot in H as (? & ? & -> & H).
  do 4 (apply match_lit in H as (? & -> & H)).
  apply match_dot in H as (? & ? & -> & H).
  do 4 (apply match_lit in H as (? & -> & H)).
  apply match_dot in H as (? & ? & -> & H).
  do 7 (apply match_lit in H as (? & -> & H)).
  apply match_dot in H as (? & ? & -> & H).
  do 4 (apply match_lit in H as (? & -> & H)).
  rewrite match_open in H.
  apply match_plus in H as (d2 & a2 & t3 & p3 & -> & _).
  do 6 apply after_slashes_cons. rewrite !after_slashes_slash.
  apply after_slashes_app.
  do 22 apply after_slashes_cons.
  rewrite after_slashes_slash. reflexivity.
Qed.

Lemma search_from_shape (its : list Re.item) :
  (forall s pos r, Re.match_here its s pos [] [] = Some r -> after_slashes s 3 = true) ->
  forall s pos r, Re.search_from its s pos = Some r -> after_slashes s 3 = true.
Proof.
  intros Hshape. induction s as [|c s IH]; intros pos r; cbn [Re.search_from].
  - destruct (Re.match_here its "" pos [] []) eqn:Hm; [|discriminate].
    intros _. eapply Hshape; eassumption.
  - destruct (Re.match_here its (String c s) pos [] []) eqn:Hm.
    + intros _. eapply Hshape; eassumption.
    + intros H. apply after_slashes_cons. eapply IH; eassumption.
Qed.

Lemma matches_shape (pattern s : string) :
  (forall t pos r, Re.match_here (Re.compile pattern) t pos [] [] = Some r ->
                   after_slashes t 3 = true) ->
  after_slashes s 3 = false -> Re.matches pattern s = false.
Proof.
  intros Hshape Hs. unfold Re.matches, Re.search.
  destruct (Re.search_from (Re.compile pattern) s 0) eqn:H; [|reflexivity].
  apply (search_from_shape _ Hshape) in H. congruence.
Qed.

Lemma after_slashes_bare_host (host tail : string) :
  Py.has_char "/" host = false -> (tail = "" \/ tail = "/") ->
  after_slashes (host ++ tail) 1 = false.
Proof.
  intros Hhost Htail.
  induction host as [|c host IH]; rewrite ?str_app_cons, ?str_app_nil.
  - destruct Htail as [-> | ->]; reflexivity.
  - cbn [Py.has_char] in Hhost. apply orb_false_elim in Hhost as [Hc Hrest].
    cbn [after_slashes]. rewrite Hc. auto.
Qed.

Lemma download_fresh_dir (w : world) (mount uri : string) (st : state) :
  is_local_uri (files st) uri = false ->
  Storage.download w mount uri None st
  = Storage.dispatch w mount uri (mkdtemp_name w (files st)) false
      {| files := <[mkdtemp_name w (files st) := Dir]> (files st); trace := trace st |}.
Proof.
  unfold is_local_uri. intros Hlocal.
  unfold Storage.download, Fs.exists_path, get_files.
  unfold bind at 1 2. unfold ret at 1. rewrite Hlocal.
  unfold Fs.mkdtemp, get_files, put_files, bind, ret. reflexivity.
Qed.

Lemma endswith_char_split (p : string) (c : ascii) :
  Py.endswith_char p c = true -> exists a, p = a ++ String c "".
Proof.
  induction p as [|d p IH]; [discriminate|].
  cbn [Py.endswith_char]. destruct p as [|d' p'].
  - intros H. apply ascii_eqb_eq in H. subst d. exists "". reflexivity.
  - intros H. apply IH in H as [a Ha]. exists (String d a). rewrite str_app_cons.
    now rewrite <- Ha.
Qed.

(** A path that is empty or ends in [/] has an empty last segment. *)
Lemma basename_empty (p : string) :
  p = "" \/ Py.endswith_char p "/" = true -> OsPath.basename p = "".
Proof.
  intros [-> | H]; [reflexivity|].
  apply endswith_char_split in H as [a ->].
  unfold OsPath.basename. now rewrite rpartition_last.
Qed.

Lemma mkdir_run (p : string) (st : state) :
  Fs.mkdir p st =
  match Fs.mkdir_files (files st) p with
  | Ok fs' => (Ok tt, {| files := fs'; trace := trace st |})
  | Raise e => (Raise e, st)
  end.
Proof.
  unfold Fs.mkdir, bind, get_files, lift, put_files.
  destruct (Fs.mkdir_files (files st) p); reflexivity.
Qed.

(** [download] with a destination that [mkdir] can make. *)
Lemma download_new_dir (w : world) (mount uri out_dir : string) (st : state)
    (fs' : gmap string node) :
  Fs.exists_ (files st) out_dir = false ->
  Fs.mkdir_files (files st) out_dir = Ok fs' ->
  Storage.download w mount uri (Some out_dir) st
  = Storage.dispatch w mount uri out_dir (is_local_uri (files st) uri)
      {| files := fs'; trace := trace st |}.
Proof.
  intros Hout Hmk. unfold Storage.download, Fs.exists_path, get_files.
  unfold bind at 1 2. unfold ret at 1. unfold bind at 1 2. unfold ret at 1.
  rewrite Hout. cbn [negb]. unfold bind at 1. rewrite mkdir_run, Hmk. reflexivity.
Qed.



(** ** Claims *)













(** C6 (evaluation of the code at the failing input). With none of the
    object-store variables set, [_create_minio_client] builds the client for
    the endpoint [s3.amazonaws.com] with an empty region and empty keys, and
    with [secure = False]: the scheme of the default endpoint URL is [http],
    so the test [url.scheme == 'https'] decides, and [S3_USE_HTTPS] with its
    default ["true"] is never read. *)
Theorem C6_default_client_is_not_secure (w : world) :
  environ w !! "AWS_ENDPOINT_URL" = None ->
  environ w !! "AWS_ACCESS_KEY_ID" = None ->
  environ w !! "AWS_SECRET_ACCESS_KEY" = None ->
  environ w !! "AWS_REGION" = None ->
  Storage._create_minio_client w
  = Ok {| endpoint := "s3.amazonaws.com"; access_key := ""; secret_key := "";
          region := ""; secure := false |}.
Proof.
  intros He Ha Hs Hr. unfold Storage._create_minio_client, getenv.
  rewrite He, Ha, Hs, Hr. reflexivity.
Qed.

Lemma C6_default_client_is_not_secure_witness :
  Storage._create_minio_client Examples.offline
  = Ok {| endpoint := "s3.amazonaws.com"; access_key := ""; secret_key := "";
          region := ""; secure := false |}.
Proof. apply C6_default_client_is_not_secure; reflexivity. Defined.

(** C7 (as amended). A run of [_download_s3] that returns has fetched, in
    listing order, exactly the listed objects that are not directory
    markers, each to [temp_dir] joined with its relative key, or with its
    full key when the relative key is empty. A run of [_download_gcs] that
    returns has fetched exactly the listed blobs whose relative key is not
    blank, each to [temp_dir] joined with its relative key; a blob whose
    relative key is empty or blank is skipped, there is no fall-back to the
    full key. *)
Theorem C7_fetched_objects (w : world) (uri temp_dir : string) (st : state) :
  (forall client objects st',
     Storage._create_minio_client w = Ok client ->
     minio_list_objects w client (bucket_name_of uri _S3_PREFIX)
       (bucket_path_of uri _S3_PREFIX) = Ok objects ->
     Storage._download_s3 w uri temp_dir st = (Ok tt, st') ->
     trace st' =
       (trace st ++
        MinioListObjects client (bucket_name_of uri _S3_PREFIX)
          (bucket_path_of uri _S3_PREFIX)
        :: List.map
             (fun obj =>
                MinioFgetObject (bucket_name_of uri _S3_PREFIX) (object_name obj)
                  (OsPath.join temp_dir
                     (if String.eqb
                           (relative_key (bucket_path_of uri _S3_PREFIX) (object_name obj)) ""
                      then object_name obj
                      else relative_key (bucket_path_of uri _S3_PREFIX) (object_name obj))))
             (List.filter (fun obj => negb (is_dir obj)) objects))%list)
  /\ (forall blobs st',
        gcs_list_blobs w (negb (gcs_default_credentials w))
          (bucket_name_of uri _GCS_PREFIX)
          (with_trailing_slash (bucket_path_of uri _GCS_PREFIX)) = Ok blobs ->
        Storage._download_gcs w uri temp_dir st = (Ok tt, st') ->
        trace st' =
          (trace st ++
           GcsListBlobs (negb (gcs_default_credentials w))
             (bucket_name_of uri _GCS_PREFIX)
             (with_trailing_slash (bucket_path_of uri _GCS_PREFIX))
           :: List.map
                (fun b =>
                   GcsDownloadToFilename (name b)
                     (OsPath.join temp_dir
                        (relative_key (bucket_path_of uri _GCS_PREFIX) (name b))))
                (List.filter
                   (fun b =>
                      negb (String.eqb
                              (Py.strip (relative_key (bucket_path_of uri _GCS_PREFIX)
                                           (name b))) ""))
                   blobs))%list).
Proof.
  split.
  - intros client objects st' Hclient Hlist Hrun.
    apply (download_s3_spec _ _ _ _ _ _ _ _ Hclient Hlist) in Hrun.
    destruct Hrun as [_ Htr]. exact Htr.
  - intros blobs st' Hlist Hrun.
    apply (download_gcs_spec _ _ _ _ _ _ _ Hlist) in Hrun.
    destruct Hrun as [_ Htr]. exact Htr.
Qed.

Lemma C7_fetched_objects_witness :
  trace (snd (Storage._download_s3 Examples.with_models "s3://foo/bar" "/out"
                Examples.disk))
  = [MinioListObjects Examples.default_client "foo" "bar";
     MinioFgetObject "foo" "bar" "/out/bar";
     MinioFgetObject "foo" "bar/a/model.pth" "/out/a/model.pth"]
  /\ trace (snd (Storage._download_gcs Examples.with_models "gs://foo/bar" "/out"
                   Examples.disk))
     = [GcsListBlobs false "foo" "bar/";
        GcsDownloadToFilename "bar/a/model.pth" "/out/a/model.pth"].
Proof.
  split.
  - destruct (C7_fetched_objects Examples.with_models "s3://foo/bar" "/out" Examples.disk)
      as [Hs3 _].
    rewrite (Hs3 Examples.default_client
               [Examples.s3_exact; Examples.s3_marker; Examples.s3_model]
               (snd (Storage._download_s3 Examples.with_models "s3://foo/bar" "/out"
                       Examples.disk)));
      vm_compute; reflexivity.
  - destruct (C7_fetched_objects Examples.with_models "gs://foo/bar" "/out" Examples.disk)
      as [_ Hgcs].
    rewrite (Hgcs [Examples.gcs_marker; Examples.gcs_blank; Examples.gcs_model]
               (snd (Storage._download_gcs Examples.with_models "gs://foo/bar" "/out"
                       Examples.disk)));
      vm_compute; reflexivity.
Defined.

(** C7, as stated, fails for backend B. Under [gs://foo/bar] the listing
    holds the marker [bar/], whose relative key is empty, a blob named by a
    single space, whose relative key is blank, and a model file. The run
    returns having fetched the model file only: the blob with the empty
    relative key is not written under its full key, and the blob named by a
    space, which is no directory marker, is not written at all. *)
Lemma C7_gcs_skips_blank_relative_keys :
  gcs_list_blobs Examples.with_models false "foo" "bar/"
    = Ok [Examples.gcs_marker; Examples.gcs_blank; Examples.gcs_model]
  /\ relative_key "bar" (name Examples.gcs_marker) = ""
  /\ relative_key "bar" (name Examples.gcs_blank) = " "
  /\ Storage._download_gcs Examples.with_models "gs://foo/bar" "/out" Examples.disk
     = (Ok tt,
        {| files := <["/out/a/model.pth" := File (Raw "w")]>
                      (<["/out/a" := Dir]> (files Examples.disk));
           trace := [GcsListBlobs false "foo" "bar/";
                     GcsDownloadToFilename "bar/a/model.pth" "/out/a/model.pth"] |}).
Proof. repeat split; vm_compute; reflexivity. Qed.

(** C8. When the blob pattern matches a URI and its second group, the text
    after the host, has no [/], [_download_blob] fails at the unpacking of
    [storage_url.split("/", 1)] before any call is made, with a [ValueError]
    that is none of the documented failures; [download] passes it on. *)
Theorem C8_blob_uri_without_prefix_unpack_error (w : world) (mount : string)
    (uri out_dir account storage_url : string) (st : state) :
  Re.search _BLOB_RE uri = Some [account; storage_url] ->
  Py.has_char "/" storage_url = false ->
  Storage._download_blob w uri out_dir st = (Raise UnpackError, st)
  /\ ~ in_taxonomy UnpackError
  /\ (Py.startswith uri _GCS_PREFIX = false ->
      Py.startswith uri _S3_PREFIX = false ->
      Fs.exists_ (files st) out_dir = true ->
      Storage.download w mount uri (Some out_dir) st = (Raise UnpackError, st)).
Proof.
  intros Hre Hslash.
  assert (Hblob : Storage._download_blob w uri out_dir st = (Raise UnpackError, st)).
  { unfold Storage._download_blob. rewrite Hre, (split1_absent _ _ Hslash). reflexivity. }
  split; [exact Hblob|]. split.
  - unfold in_taxonomy, UnpackError, UnrecognizedScheme, LocalPathNotFound,
      ArtifactNotFound, MissingFilename, FetchFailed, ContentTypeMismatch.
    intros H.
    repeat match goal with
           | H : _ \/ _ |- _ => destruct H as [H|H]
           | H : exists _, _ |- _ => destruct H as [? H]
           end; simpl in H; discriminate H.
  - intros Hgs Hs3 Hout.
    unfold Storage.download, Fs.exists_path, get_files, bind, ret.
    rewrite Hout. simpl.
    unfold Storage.dispatch, Re.matches. rewrite Hgs, Hs3, Hre.
    unfold bind. rewrite Hblob. reflexivity.
Qed.

Lemma C8_blob_uri_without_prefix_unpack_error_witness :
  Storage._download_blob Examples.offline
    "https://account.blob.core.windows.net/container" "/out" Examples.disk
  = (Raise UnpackError, Examples.disk)
  /\ ~ in_taxonomy UnpackError
  /\ Storage.download Examples.offline Examples.mount_dirs
       "https://account.blob.core.windows.net/container" (Some "/out") Examples.disk
     = (Raise UnpackError, Examples.disk).
Proof.
  destruct (C8_blob_uri_without_prefix_unpack_error Examples.offline Examples.mount_dirs
              "https://account.blob.core.windows.net/container" "/out"
              "account" "container" Examples.disk) as (H1 & H2 & H3);
    [vm_compute; reflexivity | reflexivity |].
  split; [exact H1|]. split; [exact H2|].
  apply H3; reflexivity.
Defined.

(** C9 (as amended). For a host without [/], neither pattern of the module
    matches [http(s)://host] or [http(s)://host/]; when such a URI is no
    existing local path and does not start with the managed mount prefix,
    [download] fails with UnrecognizedScheme. MissingFilename is what the
    generic backend raises for every URI it is handed whose parsed path is
    empty or ends in [/]. *)
Theorem C9_bare_host_uri_is_unrecognized (w : world) (mount host : string)
    (secure trailing : bool) (st : state) :
  Py.has_char "/" host = false ->
  Fs.exists_ (files st) (bare_host_uri secure trailing host) = false ->
  Py.startswith (bare_host_uri secure trailing host) mount = false ->
  Re.matches _URI_RE (bare_host_uri secure trailing host) = false
  /\ Re.matches _BLOB_RE (bare_host_uri secure trailing host) = false
  /\ (forall out_dir,
        Fs.exists_ (files st) out_dir = true ->
        Storage.download w mount (bare_host_uri secure trailing host) (Some out_dir) st
        = (Raise (UnrecognizedScheme (bare_host_uri secure trailing host)), st))
  /\ fst (Storage.download w mount (bare_host_uri secure trailing host) None st)
     = Raise (UnrecognizedScheme (bare_host_uri secure trailing host))
  /\ (forall uri url out_dir st0,
        UrlParse.urlparse uri = Ok url ->
        UrlParse.path url = "" \/ Py.endswith_char (UrlParse.path url) "/" = true ->
        Storage._download_from_uri w uri out_dir st0 = (Raise (MissingFilename uri), st0)).
Proof.
  intros Hhost Hex Hmount.
  set (uri := bare_host_uri secure trailing host) in *.
  assert (Hslashes : after_slashes uri 3 = false).
  { subst uri. unfold bare_host_uri.
    assert (Htail : (if trailing then "/" else "") = "" \/ (if trailing then "/" else "") = "/")
      by (destruct trailing; auto).
    pose proof (after_slashes_bare_host host _ Hhost Htail) as H.
    destruct secure; exact H. }
  assert (Huri : Re.matches _URI_RE uri = false)
    by (apply matches_shape; [apply uri_re_shape|exact Hslashes]).
  assert (Hblob : Re.matches _BLOB_RE uri = false)
    by (apply matches_shape; [apply blob_re_shape|exact Hslashes]).
  assert (Hs3 : Py.startswith uri _S3_PREFIX = false)
    by (subst uri; destruct secure; reflexivity).
  assert (Hgcs : Py.startswith uri _GCS_PREFIX = false)
    by (subst uri; destruct secure; reflexivity).
  assert (Hfile : Py.startswith uri _LOCAL_PREFIX = false)
    by (subst uri; destruct secure; reflexivity).
  assert (Hlocal : is_local_uri (files st) uri = false)
    by (unfold is_local_uri; now rewrite Hfile, Hex).
  assert (Hkind : classify mount uri false = Unknown)
    by (unfold classify; now rewrite Hs3, Hgcs, Hblob, Huri, Hmount).
  split; [exact Huri|]. split; [exact Hblob|]. split; [|split].
  - intros out_dir Hout.
    rewrite (download_existing_dir _ _ _ _ _ Hout), Hlocal, dispatch_classify, Hkind.
    reflexivity.
  - rewrite (download_fresh_dir _ _ _ _ Hlocal), dispatch_classify, Hkind. reflexivity.
  - intros uri0 url out_dir st0 Hurl Hpath.
    unfold Storage._download_from_uri. rewrite Hurl. unfold bind, lift.
    destruct (Mimetypes.guess_type (types_map w) (UrlParse.path url)) as [m enc].
    rewrite (basename_empty _ Hpath). reflexivity.
Qed.

Lemma C9_bare_host_uri_is_unrecognized_witness :
  Re.matches _URI_RE "https://host/" = false
  /\ Storage.download Examples.offline Examples.mount_dirs "https://host/" (Some "/out")
       Examples.disk
     = (Raise (UnrecognizedScheme "https://host/"), Examples.disk)
  /\ Storage._download_from_uri Examples.offline "https://foo.bar/test/" "/out"
       Examples.disk
     = (Raise (MissingFilename "https://foo.bar/test/"), Examples.disk).
Proof.
  destruct (C9_bare_host_uri_is_unrecognized Examples.offline Examples.mount_dirs "host"
              true true Examples.disk) as (Huri & _ & Hsome & _ & Hmissing);
    [reflexivity | reflexivity | reflexivity |].
  split; [exact Huri|]. split.
  - apply Hsome. reflexivity.
  - apply (Hmissing "https://foo.bar/test/"
             {| UrlParse.scheme := "https"; UrlParse.netloc := "foo.bar";
                UrlParse.path := "/test/"; UrlParse.params := "";
                UrlParse.query := ""; UrlParse.fragment := "" |}).
    + reflexivity.
    + right. reflexivity.
Defined.

(** C9, as stated, fails. The path of [https://host/?x] is ["/"], so it has
    no non-empty segment after the host, but the generic pattern matches,
    its second group taking the query, and [download] fails with
    MissingFilename, not with UnrecognizedScheme. The same holds for
    [https://host?x/y], whose path is empty. *)
Lemma C9_query_only_uri_misses_filename :
  UrlParse.urlparse "https://host/?x"
  = Ok {| UrlParse.scheme := "https"; UrlParse.netloc := "host"; UrlParse.path := "/";
          UrlParse.params := ""; UrlParse.query := "x"; UrlParse.fragment := "" |}
  /\ Re.search _URI_RE "https://host/?x" = Some ["host"; "?x"]
  /\ Re.matches _BLOB_RE "https://host/?x" = false
  /\ Storage.download Examples.offline Examples.mount_dirs "https://host/?x"
       (Some "/out") Examples.disk
     = (Raise (MissingFilename "https://host/?x"), Examples.disk)
  /\ UrlParse.urlparse "https://host?x/y"
     = Ok {| UrlParse.scheme := "https"; UrlParse.netloc := "host"; UrlParse.path := "";
             UrlParse.params := ""; UrlParse.query := "x/y"; UrlParse.fragment := "" |}
  /\ Storage.download Examples.offline Examples.mount_dirs "https://host?x/y"
       (Some "/out") Examples.disk
     = (Raise (MissingFilename "https://host?x/y"), Examples.disk).
Proof. repeat split; vm_compute; reflexivity. Qed.

(** C10. [_download_gcs] first calls the listing with the key-prefix of the
    URI, with a [/] appended when it does not end in one, whatever the
    listing then answers; for [gs://bucket] that prefix is ["/"]. When the
    run returns, each blob it fetched went to the destination joined with
    the blob name stripped of the key-prefix as the URI has it, without the
    appended [/]. *)
Theorem C10_gcs_listing_prefix (w : world) (uri temp_dir : string) (st : state) :
  (exists r st' tl,
     Storage._download_gcs w uri temp_dir st = (r, st')
     /\ trace st' =
          (trace st ++
           GcsListBlobs (negb (gcs_default_credentials w))
             (bucket_name_of uri _GCS_PREFIX)
             (if Py.endswith_char (bucket_path_of uri _GCS_PREFIX) "/"
              then bucket_path_of uri _GCS_PREFIX
              else bucket_path_of uri _GCS_PREFIX ++ "/") :: tl)%list
     /\ (forall blobs,
           gcs_list_blobs w (negb (gcs_default_credentials w))
             (bucket_name_of uri _GCS_PREFIX)
             (with_trailing_slash (bucket_path_of uri _GCS_PREFIX)) = Ok blobs ->
           r = Ok tt ->
           tl = List.map
                  (fun b =>
                     GcsDownloadToFilename (name b)
                       (OsPath.join temp_dir
                          (Py.strip_slash
                             (Py.replace1 (name b) (bucket_path_of uri _GCS_PREFIX) ""))))
                  (List.filter (gcs_kept (bucket_path_of uri _GCS_PREFIX)) blobs)))
  /\ (forall bucket,
        Py.has_char "/" bucket = false ->
        bucket_name_of ("gs://" ++ bucket) _GCS_PREFIX = bucket
        /\ bucket_path_of ("gs://" ++ bucket) _GCS_PREFIX = ""
        /\ with_trailing_slash (bucket_path_of ("gs://" ++ bucket) _GCS_PREFIX) = "/").
Proof.
  split.
  - fold (with_trailing_slash (bucket_path_of uri _GCS_PREFIX)).
    destruct (gcs_list_blobs w (negb (gcs_default_credentials w))
                (bucket_name_of uri _GCS_PREFIX)
                (with_trailing_slash (bucket_path_of uri _GCS_PREFIX)))
      as [blobs|e] eqn:Hlist.
    + destruct (Storage._download_gcs w uri temp_dir st) as [r st'] eqn:Hrun.
      pose proof (download_gcs_spec _ _ _ _ _ _ _ Hlist Hrun) as Hspec.
      destruct r as [[]|e].
      * destruct Hspec as [_ Htr]. eexists _, _, _. split; [reflexivity|].
        split; [exact Htr|]. intros blobs' Hb _. now inversion Hb.
      * destruct Hspec as [_ [tl Htr]]. eexists _, _, tl. split; [reflexivity|].
        split; [exact Htr|]. intros ? _ Hr. discriminate Hr.
    + rewrite download_gcs_lists_first, Hlist. unfold bind, lift.
      eexists _, _, []. split; [reflexivity|]. split; [reflexivity|].
      intros ? _ Hr. discriminate Hr.
  - intros bucket Hslash.
    unfold bucket_name_of, bucket_path_of, _GCS_PREFIX.
    rewrite (bucket_args_prefix "gs://" bucket), (split1_absent _ _ Hslash).
    repeat split.
Qed.

Lemma C10_gcs_listing_prefix_witness :
  (exists tl,
     trace (snd (Storage._download_gcs Examples.with_models "gs://foo/bar" "/out"
                   Examples.disk))
     = GcsListBlobs false "foo" "bar/" :: tl
     /\ tl = [GcsDownloadToFilename "bar/a/model.pth" "/out/a/model.pth"])
  /\ with_trailing_slash (bucket_path_of "gs://foo" _GCS_PREFIX) = "/".
Proof.
  destruct (C10_gcs_listing_prefix Examples.with_models "gs://foo/bar" "/out" Examples.disk)
    as [(r & st' & tl & Hrun & Htr & Hfetched) Hbucket].
  split.
  - exists tl. rewrite Hrun. split; [exact Htr|].
    rewrite (Hfetched [Examples.gcs_marker; Examples.gcs_blank; Examples.gcs_model]).
    + reflexivity.
    + reflexivity.
    + assert (Hr : fst (Storage._download_gcs Examples.with_models "gs://foo/bar" "/out"
                          Examples.disk) = Ok tt) by (vm_compute; reflexivity).
      rewrite Hrun in Hr. exact Hr.
  - apply (Hbucket "foo"). reflexivity.
Defined.

(** * Further properties of the module *)

(** ** Paths that stay *)

Lemma keeps_ret {A} (p : string) (a : A) : keeps p (ret a).
Proof. intros st r st' H. inversion H; subst. auto. Qed.

Lemma keeps_raise {A} (p : string) (e : exn) : keeps p (@raise A e).
Proof. intros st r st' H. inversion H; subst. auto. Qed.

Lemma keeps_lift {A} (p : string) (x : result A) : keeps p (lift x).
Proof. intros st r st' H. inversion H; subst. auto. Qed.

Lemma keeps_emit (p : string) (e : event) : keeps p (emit e).
Proof. intros st r st' H. inversion H; subst. auto. Qed.

Lemma keeps_get_files (p : string) : keeps p get_files.
Proof. intros st r st' H. inversion H; subst. auto. Qed.

Lemma keeps_bind {A B} (p : string) (m : M A) (k : A -> M B) :
  keeps p m -> (forall a, keeps p (k a)) -> keeps p (bind m k).
Proof.
  intros Hm Hk st r st' H Hp.
  apply bind_inv in H as [(a & st1 & H1 & H2)|(e & H1 & _)].
  - eapply Hk; [exact H2|]. eapply Hm; eassumption.
  - eapply Hm; eassumption.
Qed.

Lemma keeps_try_except {A} (p : string) (m h : M A) :
  keeps p m -> keeps p h -> keeps p (try_except m h).
Proof.
  intros Hm Hh st r st' H Hp. unfold try_except in H.
  destruct (m st) as [[a|e] st1] eqn:H1.
  - inversion H; subst. eapply Hm; eassumption.
  - eapply Hh; [exact H|]. eapply Hm; eassumption.
Qed.

Lemma exists_insert (fs : gmap string node) (p q : string) (n : node) :
  Fs.exists_ fs p = true -> Fs.exists_ (<[q := n]> fs) p = true.
Proof.
  unfold Fs.exists_. destruct (decide (q = p)) as [->|Hne].
  - now rewrite lookup_insert_eq.
  - now rewrite lookup_insert_ne.
Qed.

Lemma keeps_write_file (p q : string) (c : content) : keeps p (Fs.write_file q c).
Proof.
  intros st r st' H Hp. rewrite write_file_run in H.
  destruct (Fs.isdir (files st) q); inversion H; subst; [exact Hp|].
  now apply exists_insert.
Qed.

Lemma keeps_symlink (p src dst : string) : keeps p (Fs.symlink src dst).
Proof.
  intros st r st' H Hp. unfold Fs.symlink, bind, get_files, raise, put_files in H.
  destruct (Fs.exists_ (files st) dst); inversion H; subst; [exact Hp|].
  now apply exists_insert.
Qed.

Lemma mkdir_files_keeps (fs fs' : gmap string node) (p q : string) :
  Fs.mkdir_files fs q = Ok fs' -> Fs.exists_ fs p = true -> Fs.exists_ fs' p = true.
Proof.
  unfold Fs.mkdir_files.
  destruct (Fs.exists_ fs q); [discriminate|].
  destruct (Py.is_empty (OsPath.dirname q) || Fs.isdir fs (OsPath.dirname q));
    [|discriminate].
  intros H; injection H as <-. apply exists_insert.
Qed.

Lemma mkdir_exist_ok_keeps (fs fs' : gmap string node) (p q : string) (ok : bool) :
  Fs.mkdir_exist_ok fs q ok = Ok fs' ->
  Fs.exists_ fs p = true -> Fs.exists_ fs' p = true.
Proof.
  unfold Fs.mkdir_exist_ok. destruct (Fs.mkdir_files fs q) as [fs1|e] eqn:Hm.
  - intros H; injection H as <-. eapply mkdir_files_keeps; eassumption.
  - destruct (ok && Fs.isdir fs q); [|discriminate]. intros H; injection H as <-. auto.
Qed.

Lemma makedirs_files_keeps (fuel : nat) :
  forall (fs fs' : gmap string node) (p q : string) (ok : bool),
  Fs.makedirs_files fuel fs q ok = Ok fs' ->
  Fs.exists_ fs p = true -> Fs.exists_ fs' p = true.
Proof.
  induction fuel as [|fuel IH]; intros fs fs' p q ok; cbn [Fs.makedirs_files];
    destruct (OsPath.split q) as [head tail];
    destruct (if Py.is_empty tail then OsPath.split head else (head, tail)) as [h t];
    destruct (negb (Py.is_empty h) && negb (Py.is_empty t) && negb (Fs.exists_ fs h));
    try apply mkdir_exist_ok_keeps.
  - discriminate.
  - destruct (Fs.makedirs_files fuel fs h ok) as [fs1|e] eqn:Hrec.
    + destruct (String.eqb t ".").
      * intros H; injection H as <-. eapply IH; eassumption.
      * intros H Hp. eapply mkdir_exist_ok_keeps; [exact H|]. eapply IH; eassumption.
    + destruct (Fs.is_file_exists_error e); [|discriminate].
      destruct (String.eqb t ".").
      * intros H; injection H as <-. auto.
      * apply mkdir_exist_ok_keeps.
Qed.

Lemma keeps_makedirs (p q : string) (ok : bool) : keeps p (Fs.makedirs q ok).
Proof.
  intros st r st' H Hp. rewrite makedirs_run in H.
  destruct (Fs.makedirs_files _ _ _ _) as [fs1|e] eqn:Hm; inversion H; subst; [|exact Hp].
  eapply makedirs_files_keeps; eassumption.
Qed.

Lemma keeps_mkdir (p q : string) : keeps p (Fs.mkdir q).
Proof.
  intros st r st' H Hp. rewrite mkdir_run in H.
  destruct (Fs.mkdir_files _ _) as [fs1|e] eqn:Hm; inversion H; subst; [|exact Hp].
  eapply mkdir_files_keeps; eassumption.
Qed.

Lemma keeps_isdir_path (p q : string) : keeps p (Fs.isdir_path q).
Proof. intros st r st' H. inversion H; subst. auto. Qed.

Lemma keeps_exists_path (p q : string) : keeps p (Fs.exists_path q).
Proof. intros st r st' H. inversion H; subst. auto. Qed.

Lemma keeps_read_file (p q : string) : keeps p (Fs.read_file q).
Proof.
  intros st r st' H. unfold Fs.read_file, bind, get_files, ret, raise in H.
  destruct (files st !! q) as [[| |]|]; inversion H; subst; auto.
Qed.

(** [os.remove(q)] takes away nothing but [q]. *)
Lemma keeps_remove (p q : string) : p <> q -> keeps p (Fs.remove q).
Proof.
  intros Hne st r st' H Hp. unfold Fs.remove, bind, get_files, raise, put_files in H.
  destruct (files st !! q) as [[| |]|]; inversion H; subst; try exact Hp;
    unfold Fs.exists_ in *; cbn [files]; now rewrite lookup_delete_ne.
Qed.

Create HintDb keeps.
#[local] Hint Resolve keeps_ret keeps_raise keeps_lift keeps_emit keeps_get_files
  keeps_write_file keeps_symlink keeps_makedirs keeps_mkdir keeps_isdir_path
  keeps_exists_path keeps_read_file : keeps.

(** Splits a goal [keeps p m] along the binds, branches and matches of [m]. *)
Ltac keeps_step :=
  match goal with
  | |- keeps _ (bind _ _) => apply keeps_bind; [|intros]
  | |- keeps _ (try_except _ _) => apply keeps_try_except
  | |- keeps _ (if ?b then _ else _) => destruct b
  | |- keeps _ (let '(_, _) := ?x in _) => destruct x
  | |- keeps _ (match ?x with _ => _ end) => destruct x
  | |- keeps _ _ => solve [auto with keeps]
  end.

Lemma keeps_s3_loop (p bn bp temp : string) (objects : list s3_object) :
  forall count, keeps p (Storage.s3_loop bn bp temp objects count).
Proof.
  induction objects as [|obj rest IH]; intros count; cbn [Storage.s3_loop].
  - apply keeps_ret.
  - apply keeps_bind; [|intros; apply IH].
    unfold Storage.s3_step, Storage.fget_object. repeat keeps_step.
Qed.

Lemma keeps_download_s3 (w : world) (p uri temp : string) :
  keeps p (Storage._download_s3 w uri temp).
Proof.
  unfold Storage._download_s3. repeat keeps_step. apply keeps_s3_loop.
Qed.

Lemma keeps_gcs_loop (p bp temp : string) (blobs : list blob) :
  forall count, keeps p (Storage.gcs_loop bp temp blobs count).
Proof.
  induction blobs as [|b rest IH]; intros count; cbn [Storage.gcs_loop].
  - apply keeps_ret.
  - apply keeps_bind; [|intros; apply IH].
    unfold Storage.gcs_step, Storage.download_to_filename. repeat keeps_step.
Qed.

Lemma keeps_download_gcs (w : world) (p uri temp : string) :
  keeps p (Storage._download_gcs w uri temp).
Proof.
  unfold Storage._download_gcs. repeat keeps_step. apply keeps_gcs_loop.
Qed.

Lemma keeps_blob_loop (p container prefix out_dir : string) (blobs : list blob) :
  forall count, keeps p (Storage.blob_loop container prefix out_dir blobs count).
Proof.
  induction blobs as [|b rest IH]; intros count; cbn [Storage.blob_loop].
  - apply keeps_ret.
  - apply keeps_bind; [|intros; apply IH].
    unfold Storage.blob_step. repeat keeps_step.
Qed.

Lemma keeps_download_blob (w : world) (p uri out_dir : string) :
  keeps p (Storage._download_blob w uri out_dir).
Proof.
  unfold Storage._download_blob, Storage.list_blobs_azure,
    Storage._get_azure_storage_token.
  repeat keeps_step; apply keeps_blob_loop.
Qed.

Lemma keeps_link_loop (p out_dir : string) (srcs : list string) :
  keeps p (Storage.link_loop out_dir srcs).
Proof.
  induction srcs as [|src rest IH]; cbn [Storage.link_loop].
  - apply keeps_ret.
  - destruct (OsPath.split src) as [h tail]. apply keeps_bind; [|intros; apply IH].
    apply keeps_symlink.
Qed.

Lemma keeps_download_local (w : world) (p uri : string) (out_dir : option string) :
  keeps p (Storage._download_local w uri out_dir).
Proof.
  unfold Storage._download_local. repeat keeps_step; apply keeps_link_loop.
Qed.

Lemma keeps_extractall (p out_dir : string) (members : list (string * string)) :
  keeps p (Storage.extractall out_dir members).
Proof.
  induction members as [|[member data] rest IH]; cbn [Storage.extractall].
  - apply keeps_ret.
  - apply keeps_bind; [|intros; apply IH]. apply keeps_write_file.
Qed.

Lemma rpartition_tail (c : ascii) (s : string) :
  Py.has_char c (snd (Py.rpartition c s)) = false.
Proof.
  induction s as [|d s IH]; cbn [Py.rpartition]; [reflexivity|].
  pose proof (rpartition_spec c s) as Hspec.
  destruct (Py.rpartition c s) as [[a found] b]. cbn [snd] in *.
  destruct found; [exact IH|]. destruct Hspec as [_ ->].
  destruct (Py.ascii_eqb c d) eqn:Hc; cbn [snd Py.has_char]; [exact IH|].
  now rewrite Hc, IH.
Qed.

(** The last segment of a path has no [/] in it. *)
Lemma basename_no_slash (p : string) : Py.has_char "/" (OsPath.basename p) = false.
Proof.
  unfold OsPath.basename. pose proof (rpartition_tail "/" p) as H.
  destruct (Py.rpartition "/" p) as [[a found] b]. exact H.
Qed.

Lemma no_slash_not_absolute (x : string) :
  Py.has_char "/" x = false -> Py.startswith x "/" = false.
Proof.
  destruct x as [|c x]; [reflexivity|]. cbn [Py.has_char Py.startswith].
  intros H. apply orb_false_elim in H as [Hc _]. now rewrite Hc.
Qed.

(** Joining a non-empty relative name to a directory gives another path. *)
Lemma join_ne_self (d x : string) :
  x <> "" -> Py.startswith x "/" = false -> OsPath.join d x <> d.
Proof.
  intros Hx Hrel. unfold OsPath.join. rewrite Hrel.
  destruct (Py.is_empty d || Py.endswith_char d "/"); intros E;
    apply (f_equal String.length) in E; rewrite !str_app_length in E;
    destruct x; [congruence| |congruence|]; cbn [String.length] in E; lia.
Qed.

Lemma keeps_save_response (p out_dir filename : string) (mimetype encoding : option string)
    (resp : response) :
  p <> OsPath.join out_dir filename ->
  p <> OsPath.join out_dir (filename ++ ".tar") ->
  keeps p (Storage.save_response out_dir filename mimetype encoding resp).
Proof.
  intros Hplain Htar. unfold Storage.save_response.
  destruct (Py.opt_eqb encoding "gzip"); cbv zeta;
    repeat keeps_step;
    first [apply keeps_extractall | apply keeps_remove; assumption].
Qed.

Lemma keeps_download_from_uri (w : world) (uri out_dir : string) :
  keeps out_dir (Storage._download_from_uri w uri out_dir).
Proof.
  unfold Storage._download_from_uri.
  apply keeps_bind; [apply keeps_lift|]. intros url.
  destruct (Mimetypes.guess_type (types_map w) (UrlParse.path url)) as [m enc].
  destruct (String.eqb (OsPath.basename (UrlParse.path url)) "") eqn:Hname;
    [apply keeps_raise|].
  apply String.eqb_neq in Hname.
  pose proof (basename_no_slash (UrlParse.path url)) as Hslash.
  repeat keeps_step.
  apply keeps_save_response; intros E; symmetry in E; revert E; apply join_ne_self.
  - exact Hname.
  - now apply no_slash_not_absolute.
  - destruct (OsPath.basename (UrlParse.path url)); discriminate.
  - apply no_slash_not_absolute. rewrite has_char_app, Hslash. reflexivity.
Qed.

Lemma keeps_dispatch (w : world) (mount uri out_dir : string) (is_local : bool) :
  keeps out_dir (Storage.dispatch w mount uri out_dir is_local).
Proof.
  rewrite dispatch_classify.
  destruct (classify mount uri is_local); repeat keeps_step.
  - apply keeps_download_s3.
  - apply keeps_download_gcs.
  - apply keeps_download_blob.
  - apply keeps_download_local.
  - apply keeps_download_from_uri.
Qed.

(** ** What is returned *)

Lemma returns_ret {A} (a : A) : returns_only a (ret a).
Proof. intros st d st' H. now inversion H. Qed.

Lemma returns_raise {A} (a : A) (e : exn) : returns_only a (raise e).
Proof. intros st d st' H. inversion H. Qed.

Lemma returns_bind {A B} (b : B) (m : M A) (k : A -> M B) :
  (forall a, returns_only b (k a)) -> returns_only b (bind m k).
Proof.
  intros Hk st d st' H.
  apply bind_inv in H as [(a & st1 & _ & H2)|(e & _ & Habs)]; [|discriminate].
  eapply Hk; eassumption.
Qed.

Ltac returns_step :=
  match goal with
  | |- returns_only _ (bind _ _) => apply returns_bind; intros
  | |- returns_only _ (ret _) => apply returns_ret
  | |- returns_only _ (raise _) => apply returns_raise
  | |- returns_only _ (if ?b then _ else _) => destruct b
  | |- returns_only _ (let '(_, _) := ?x in _) => destruct x
  | |- returns_only _ (match ?x with _ => _ end) => destruct x
  end.

(** Every branch of the dispatch that returns, returns the destination. *)
Lemma returns_dispatch (w : world) (mount uri out_dir : string) (is_local : bool) :
  returns_only out_dir (Storage.dispatch w mount uri out_dir is_local).
Proof.
  unfold Storage.dispatch, Storage._download_local, Storage._download_from_uri,
    Storage.save_response.
  repeat returns_step.
Qed.

Lemma download_no_dir_local (w : world) (mount uri : string) (st : state) :
  is_local_uri (files st) uri = true ->
  Storage.download w mount uri None st = Storage._download_local w uri None st.
Proof.
  unfold is_local_uri. intros Hlocal.
  unfold Storage.download, Fs.exists_path, get_files.
  unfold bind at 1 2. unfold ret at 1. rewrite Hlocal. reflexivity.
Qed.

(** X1. Whenever [download] returns, the path it returns exists in the file
    system it leaves behind, whatever the backend, the listing or the
    archive was; with a destination argument, that path is the argument. *)
Theorem X1_download_result_exists (w : world) (mount uri : string)
    (out_dir : option string) (st st' : state) (d : string) :
  Storage.download w mount uri out_dir st = (Ok d, st') ->
  Fs.exists_ (files st') d = true
  /\ (forall o, out_dir = Some o -> d = o).
Proof.
  intros Hrun. destruct out_dir as [o|].
  - assert (Hd : d = o /\ Fs.exists_ (files st') o = true); [|destruct Hd as [-> Hd]].
    { destruct (Fs.exists_ (files st) o) eqn:Hout.
      - rewrite (download_existing_dir _ _ _ _ _ Hout) in Hrun. split.
        + eapply returns_dispatch; eassumption.
        + eapply keeps_dispatch; eassumption.
      - destruct (Fs.mkdir_files (files st) o) as [fs1|e] eqn:Hmk.
        + rewrite (download_new_dir _ _ _ _ _ _ Hout Hmk) in Hrun. split.
          * eapply returns_dispatch; eassumption.
          * eapply keeps_dispatch; [eassumption|]. cbn [files].
            unfold Fs.mkdir_files in Hmk. rewrite Hout in Hmk.
            destruct (Py.is_empty (OsPath.dirname o)
                      || Fs.isdir (files st) (OsPath.dirname o)); [|discriminate].
            injection Hmk as <-. unfold Fs.exists_. now rewrite lookup_insert_eq.
        + exfalso. unfold Storage.download, Fs.exists_path, get_files in Hrun.
          unfold bind at 1 2 in Hrun. unfold ret at 1 in Hrun.
          unfold bind at 1 2 in Hrun. unfold ret at 1 in Hrun.
          rewrite Hout in Hrun. cbn [negb] in Hrun. unfold bind at 1 in Hrun.
          rewrite mkdir_run, Hmk in Hrun. discriminate Hrun. }
    split; [exact Hd|]. intros o' E. now injection E.
  - split; [|discriminate].
    destruct (is_local_uri (files st) uri) eqn:Hlocal.
    + rewrite (download_no_dir_local _ _ _ _ Hlocal) in Hrun.
      unfold Storage._download_local, Fs.exists_path, get_files, bind, ret, raise in Hrun.
      destruct (Fs.exists_ (files st) (Py.replace1 uri _LOCAL_PREFIX "")) eqn:Hex;
        cbn [negb] in Hrun; inversion Hrun; subst. exact Hex.
    + rewrite (download_fresh_dir _ _ _ _ Hlocal) in Hrun.
      pose proof (returns_dispatch _ _ _ _ _ _ _ _ Hrun) as ->.
      eapply keeps_dispatch; [eassumption|]. cbn [files].
      unfold Fs.exists_. now rewrite lookup_insert_eq.
Qed.

Lemma X1_download_result_exists_witness :
  Fs.exists_
    (files (snd (Storage.download Examples.with_models Examples.mount_dirs
                   "gs://foo/bar" None Examples.disk)))
    "/tmp/tmpdir" = true.
Proof.
  apply (X1_download_result_exists Examples.with_models Examples.mount_dirs
           "gs://foo/bar" None Examples.disk
           (snd (Storage.download Examples.with_models Examples.mount_dirs
                   "gs://foo/bar" None Examples.disk)) "/tmp/tmpdir").
  vm_compute. reflexivity.
Defined.

(** ** The generic HTTP backend, case by case *)

(** X2. A response whose status is not 200 makes the generic backend fail
    with FetchFailed carrying that status, whatever content type the
    response declares and whatever the file name is; one request has been
    made and nothing has been written. *)
Theorem X2_non_200_is_fetch_failed (w : world) (uri out_dir : string) (st : state)
    (url : UrlParse.parse_result) (host : string) (hs : headers) (resp : response) :
  UrlParse.urlparse uri = Ok url ->
  OsPath.basename (UrlParse.path url) <> "" ->
  UrlParse.hostname url = Some host ->
  json_loads w (getenv w (host ++ _HEADERS_SUFFIX) "{}") = Ok hs ->
  requests_get w uri hs = Ok resp ->
  status_code resp <> 200%Z ->
  Storage._download_from_uri w uri out_dir st
  = (Raise (FetchFailed uri (status_code resp)),
     {| files := files st; trace := (trace st ++ [RequestsGet uri hs])%list |}).
Proof.
  intros Hurl Hname Hhost Hjson Hget Hstatus.
  unfold Storage._download_from_uri.
  rewrite Hurl. unfold bind at 1. unfold lift at 1.
  destruct (Mimetypes.guess_type (types_map w) (UrlParse.path url)) as [m enc].
  apply String.eqb_neq in Hname. rewrite Hname, Hhost, Hjson.
  unfold bind at 1. unfold lift at 1. unfold bind at 1. unfold emit at 1.
  rewrite Hget. unfold bind at 1. unfold lift at 1.
  apply Z.eqb_neq in Hstatus. rewrite Hstatus. reflexivity.
Qed.

Lemma X2_non_200_is_fetch_failed_witness :
  Storage._download_from_uri
    (Examples.make_world
       (fun _ _ => Ok {| status_code := 404; content_type := Some ""; raw := Raw "" |})
       [] (fun _ => []))
    "https://theabyss.net/model.joblib" "/out" Examples.disk
  = (Raise (FetchFailed "https://theabyss.net/model.joblib" 404),
     {| files := files Examples.disk;
        trace := [RequestsGet "https://theabyss.net/model.joblib" []] |}).
Proof.
  apply (X2_non_200_is_fetch_failed _ "https://theabyss.net/model.joblib" "/out"
           Examples.disk
           {| UrlParse.scheme := "https"; UrlParse.netloc := "theabyss.net";
              UrlParse.path := "/model.joblib"; UrlParse.params := "";
              UrlParse.query := ""; UrlParse.fragment := "" |}
           "theabyss.net" []
           {| status_code := 404; content_type := Some ""; raw := Raw "" |});
    try reflexivity.
  - intros H. vm_compute in H. discriminate H.
  - discriminate.
Defined.

(** X3. A URI whose parsed host is missing ([https:///x/y], [https://:80/x])
    passes the patterns and the file-name test, and then fails when the
    name of the headers variable is built, with a [TypeError] that is none
    of the documented failures; no request is made. *)
Theorem X3_missing_host_is_type_error (w : world) (uri out_dir : string) (st : state)
    (url : UrlParse.parse_result) :
  UrlParse.urlparse uri = Ok url ->
  OsPath.basename (UrlParse.path url) <> "" ->
  UrlParse.hostname url = None ->
  Storage._download_from_uri w uri out_dir st
  = (Raise (TypeError "unsupported operand type(s) for +: 'NoneType' and 'str'"), st)
  /\ ~ in_taxonomy (TypeError "unsupported operand type(s) for +: 'NoneType' and 'str'").
Proof.
  intros Hurl Hname Hhost. split.
  - unfold Storage._download_from_uri.
    rewrite Hurl. unfold bind at 1. unfold lift at 1.
    destruct (Mimetypes.guess_type (types_map w) (UrlParse.path url)) as [m enc].
    apply String.eqb_neq in Hname. rewrite Hname, Hhost. reflexivity.
  - unfold in_taxonomy, UnrecognizedScheme, LocalPathNotFound, ArtifactNotFound,
      MissingFilename, FetchFailed, ContentTypeMismatch.
    intros H.
    repeat match goal with
           | H : _ \/ _ |- _ => destruct H as [H|H]
           | H : exists _, _ |- _ => destruct H as [? H]
           end; discriminate H.
Qed.

Lemma X3_missing_host_is_type_error_witness :
  Re.matches _URI_RE "https:///x/y" = true
  /\ Storage.download Examples.offline Examples.mount_dirs "https:///x/y" (Some "/out")
       Examples.disk
     = (Raise (TypeError "unsupported operand type(s) for +: 'NoneType' and 'str'"),
        Examples.disk).
Proof.
  split; [reflexivity|].
  rewrite (download_existing_dir Examples.offline Examples.mount_dirs "https:///x/y"
             "/out" Examples.disk eq_refl), dispatch_classify.
  change (classify Examples.mount_dirs "https:///x/y"
            (is_local_uri (files Examples.disk) "https:///x/y")) with GenericHttp.
  apply (X3_missing_host_is_type_error Examples.offline "https:///x/y" "/out"
           Examples.disk
           {| UrlParse.scheme := "https"; UrlParse.netloc := "";
              UrlParse.path := "/x/y"; UrlParse.params := "";
              UrlParse.query := ""; UrlParse.fragment := "" |}).
  - reflexivity.
  - intros H. vm_compute in H. discriminate H.
  - reflexivity.
Defined.













(** ** The blob backend *)

Lemma blob_step_spec (container prefix out_dir : string) (b : blob)
    (st st' : state) (r : result unit) :
  Storage.blob_step container prefix out_dir b st = (r, st') ->
  match r with
  | Ok _ => trace st' = (trace st ++ blob_fetches container prefix out_dir [b])%list
  | Raise e => (exists kind, e = OSError kind) /\ trace st' = trace st
  end.
Proof.
  unfold Storage.blob_step, blob_fetches, blob_target. cbn [List.map].
  destruct (Py.has_char "/" (name b)).
  - destruct (OsPath.split (name b)) as [head tail].
    set (dir := OsPath.join out_dir
                  (if Py.startswith (Py.drop (String.length prefix) head) "/"
                   then Py.drop 1 (Py.drop (String.length prefix) head)
                   else Py.drop (String.length prefix) head)).
    intros H. unfold bind at 1 in H. unfold bind at 1 in H.
    unfold Fs.isdir_path at 1 in H. unfold bind at 1 in H.
    unfold get_files at 1 in H. unfold ret at 1 in H.
    destruct (negb (Fs.isdir (files st) dir)).
    + unfold bind at 1 in H. rewrite makedirs_run in H.
      destruct (Fs.makedirs_files _ _ _ _) as [fs1|e] eqn:Hm.
      * unfold ret at 1 in H. unfold bind at 1 in H. rewrite write_file_run in H.
        cbn [files trace] in H.
        destruct (Fs.isdir fs1 (OsPath.join dir tail)); inversion H; subst; eauto.
      * inversion H; subst. apply makedirs_files_raise in Hm. auto.
    + unfold bind at 1 in H. unfold ret at 1 2 in H.
      unfold bind at 1 in H. rewrite write_file_run in H.
      destruct (Fs.isdir (files st) (OsPath.join dir tail)); inversion H; subst; eauto.
  - intros H. unfold bind at 1 in H. unfold ret at 1 in H.
    unfold bind at 1 in H. rewrite write_file_run in H.
    destruct (Fs.isdir (files st) (OsPath.join out_dir (name b)));
      inversion H; subst; eauto.
Qed.

Lemma blob_loop_spec (container prefix out_dir : string) (blobs : list blob) :
  forall (count : nat) (st st' : state) (r : result nat),
  Storage.blob_loop container prefix out_dir blobs count st = (r, st') ->
  match r with
  | Ok n => n = count + List.length blobs
            /\ trace st' = (trace st ++ blob_fetches container prefix out_dir blobs)%list
  | Raise e =>
      (exists kind, e = OSError kind)
      /\ exists k, k < List.length blobs
           /\ trace st' = (trace st ++ blob_fetches container prefix out_dir
                                         (List.firstn k blobs))%list
  end.
Proof.
  induction blobs as [|b rest IH]; intros count st st' r; cbn [Storage.blob_loop].
  - unfold ret. intros H; inversion H; subst. split; [simpl; lia|].
    now rewrite app_nil_r.
  - intros H. apply bind_inv in H as [(u & st1 & Hstep & Hrest)|(e & Hstep & ->)].
    + apply blob_step_spec in Hstep. apply IH in Hrest.
      destruct r as [n|e].
      * destruct Hrest as [-> Htr]. split; [simpl; lia|].
        rewrite Htr, Hstep, <- app_assoc. reflexivity.
      * destruct Hrest as [Hk [k [Hlt Htr]]]. split; [exact Hk|].
        exists (S k). split; [simpl; lia|].
        rewrite Htr, Hstep, <- app_assoc. reflexivity.
    + apply blob_step_spec in Hstep. destruct Hstep as [Hk Htr].
      split; [exact Hk|]. exists 0. split; [simpl; lia|].
      cbn [List.firstn blob_fetches List.map]. now rewrite app_nil_r.
Qed.

(** [_download_blob] once the listing phase is over with [blobs]. *)
Lemma blob_after_listing (uri container prefix out_dir : string) (blobs : list blob)
    (st : state) :
  match bind (Storage.blob_loop container prefix out_dir blobs 0)
          (fun count => if Nat.eqb count 0 then raise (ArtifactNotFound uri) else ret tt)
          st with
  | (Ok _, st') =>
      blobs <> []
      /\ trace st' = (trace st ++ blob_fetches container prefix out_dir blobs)%list
  | (Raise e, st') =>
      (blobs = [] /\ e = ArtifactNotFound uri /\ st' = st)
      \/ (blobs <> [] /\ (exists kind, e = OSError kind)
          /\ exists k, k < List.length blobs
               /\ trace st' = (trace st ++ blob_fetches container prefix out_dir
                                             (List.firstn k blobs))%list)
  end.
Proof.
  destruct (bind _ _ st) as [r st'] eqn:H.
  apply bind_inv in H as [(n & st1 & Hloop & Hfin)|(e & Hloop & ->)].
  - destruct blobs as [|b rest].
    + cbn [Storage.blob_loop] in Hloop. inversion Hloop; subst.
      inversion Hfin; subst. left. auto.
    + apply blob_loop_spec in Hloop. destruct Hloop as [-> Htr].
      simpl in Hfin. inversion Hfin; subst. split; [discriminate|exact Htr].
  - assert (Hne : blobs <> []) by (intros ->; discriminate Hloop).
    apply blob_loop_spec in Hloop. right. tauto.
Qed.

Lemma list_blobs_azure_run (w : world) (account : string) (token : option string)
    (container prefix : string) (st : state) :
  Storage.list_blobs_azure w account token container prefix st
  = (azure_list_blobs w account token container prefix,
     {| files := files st;
        trace := trace st ++ [AzureListBlobs account token container prefix] |}).
Proof. reflexivity. Qed.

Lemma get_token_unset (w : world) (st : state) :
  azure_credentials_set w = false ->
  Storage._get_azure_storage_token w st = (Ok None, st).
Proof.
  unfold azure_credentials_set, Storage._get_azure_storage_token. intros H.
  destruct (String.eqb (getenv w "AZ_TENANT_ID" "") "");
    destruct (String.eqb (getenv w "AZ_CLIENT_ID" "") "");
    destruct (String.eqb (getenv w "AZ_CLIENT_SECRET" "") "");
    destruct (String.eqb (getenv w "AZ_SUBSCRIPTION_ID" "") "");
    try reflexivity; discriminate H.
Qed.

Lemma get_token_set (w : world) (st : state) :
  azure_credentials_set w = true ->
  Storage._get_azure_storage_token w st
  = (match adal_acquire_token w
             ("https://login.microsoftonline.com/" ++ getenv w "AZ_TENANT_ID" "")
             "https://storage.azure.com/"
             (getenv w "AZ_CLIENT_ID" "") (getenv w "AZ_CLIENT_SECRET" "") with
     | Ok t => Ok (Some t)
     | Raise e => Raise e
     end,
     {| files := files st;
        trace := trace st ++
          [AdalAcquireToken
             ("https://login.microsoftonline.com/" ++ getenv w "AZ_TENANT_ID" "")
             (getenv w "AZ_CLIENT_ID" "")] |}).
Proof.
  unfold azure_credentials_set, Storage._get_azure_storage_token. intros H.
  destruct (String.eqb (getenv w "AZ_TENANT_ID" "") "");
    destruct (String.eqb (getenv w "AZ_CLIENT_ID" "") "");
    destruct (String.eqb (getenv w "AZ_CLIENT_SECRET" "") "");
    destruct (String.eqb (getenv w "AZ_SUBSCRIPTION_ID" "") "");
    try discriminate H.
  cbn [orb]. unfold bind, emit, lift, ret.
  destruct (adal_acquire_token _ _ _ _ _); reflexivity.
Qed.

Lemma download_blob_unfold (w : world) (uri out_dir account storage_url container
    prefix : string) :
  Re.search _BLOB_RE uri = Some [account; storage_url] ->
  Py.split1 "/" storage_url = [container; prefix] ->
  Storage._download_blob w uri out_dir
  = bind (try_except
            (Storage.list_blobs_azure w account None container prefix)
            (bind (Storage._get_azure_storage_token w)
               (fun token =>
                  Storage.list_blobs_azure w account token container prefix)))
      (fun blobs =>
         bind (Storage.blob_loop container prefix out_dir blobs 0)
           (fun count =>
              if Nat.eqb count 0 then raise (ArtifactNotFound uri) else ret tt)).
Proof.
  intros Hs Hp. unfold Storage._download_blob. rewrite Hs, Hp. reflexivity.
Qed.

(** X7. When the first, anonymous listing of the blob container answers,
    [_download_blob] never looks at the credential settings and never
    calls the identity service: it returns exactly when the listing is not
    empty, after fetching every listed blob, in order and without leaving
    any out; it raises the artifact-not-found error exactly when the
    listing is empty, with the file system untouched. A fetch is modelled
    as the write of the blob's content to its path, so the only other
    failure is an OS error of the local file system, raised after the
    blobs before the failing one have been fetched. *)
Theorem X7_blob_anonymous_listing (w : world)
    (uri out_dir account storage_url container prefix : string)
    (blobs : list blob) (st : state) :
  Re.search _BLOB_RE uri = Some [account; storage_url] ->
  Py.split1 "/" storage_url = [container; prefix] ->
  azure_list_blobs w account None container prefix = Ok blobs ->
  let listing := AzureListBlobs account None container prefix in
  match Storage._download_blob w uri out_dir st with
  | (Ok _, st') =>
      blobs <> []
      /\ trace st' = (trace st ++ listing
                        :: blob_fetches container prefix out_dir blobs)%list
  | (Raise e, st') =>
      (blobs = [] /\ e = ArtifactNotFound uri /\ files st' = files st
       /\ trace st' = (trace st ++ [listing])%list)
      \/ (blobs <> [] /\ (exists kind, e = OSError kind)
          /\ exists k, k < List.length blobs
               /\ trace st' = (trace st ++ listing
                                 :: blob_fetches container prefix out_dir
                                      (List.firstn k blobs))%list)
  end.
Proof.
  intros Hs Hp Hlist listing.
  rewrite (download_blob_unfold _ _ _ _ _ _ _ Hs Hp).
  unfold bind at 1. unfold try_except at 1.
  rewrite list_blobs_azure_run, Hlist.
  fold listing.
  set (st1 := {| files := files st; trace := (trace st ++ [listing])%list |}).
  pose proof (blob_after_listing uri container prefix out_dir blobs st1) as H.
  destruct (bind _ _ st1) as [[u|e] st'].
  - destruct H as [Hne Htr]. split; [exact Hne|].
    rewrite Htr. subst st1. cbn [trace]. now rewrite <- app_assoc.
  - destruct H as [(-> & -> & ->)|(Hne & Hk & k & Hlt & Htr)].
    + left. subst st1. auto.
    + right. split; [exact Hne|]. split; [exact Hk|]. exists k. split; [exact Hlt|].
      rewrite Htr. subst st1. cbn [trace]. now rewrite <- app_assoc.
Qed.

Lemma X7_blob_anonymous_listing_witness :
  match Storage._download_blob
          (Examples.with_azure Examples.env_service_principal
             (Ok [Examples.azure_model; Examples.azure_readme])
             (fun _ => Examples.forbidden) (Ok "token"))
          Examples.blob_uri "/out" Examples.disk with
  | (Ok _, st') =>
      [Examples.azure_model; Examples.azure_readme] <> []
      /\ trace st' =
         [AzureListBlobs "acct" None "container" "models";
          AzureGetBlobToPath "container" "models/a/model.pth" "/out/a/model.pth";
          AzureGetBlobToPath "container" "readme" "/out/readme"]
  | (Raise _, _) => False
  end.
Proof.
  pose proof (X7_blob_anonymous_listing
                (Examples.with_azure Examples.env_service_principal
                   (Ok [Examples.azure_model; Examples.azure_readme])
                   (fun _ => Examples.forbidden) (Ok "token"))
                Examples.blob_uri "/out" "acct" "container/models" "container" "models"
                [Examples.azure_model; Examples.azure_readme] Examples.disk
                eq_refl eq_refl eq_refl) as H.
  cbv zeta in H.
  assert (Hok : fst (Storage._download_blob
                      (Examples.with_azure Examples.env_service_principal
                         (Ok [Examples.azure_model; Examples.azure_readme])
                         (fun _ => Examples.forbidden) (Ok "token"))
                      Examples.blob_uri "/out" Examples.disk) = Ok tt)
    by (vm_compute; reflexivity).
  destruct (Storage._download_blob _ _ _ _) as [[u|e] st'].
  - exact H.
  - discriminate Hok.
Defined.

(** X8. When the anonymous listing fails and one of the four credential
    settings (tenant, client, secret, subscription) is empty or unset,
    [_download_blob] does not call the identity service: it issues the
    same anonymous listing once more, and with a service that answers the
    repeated call as it answered the first, the caller gets that failure,
    nothing having been written. *)
Theorem X8_blob_retry_without_credentials (w : world)
    (uri out_dir account storage_url container prefix : string)
    (e : exn) (st : state) :
  Re.search _BLOB_RE uri = Some [account; storage_url] ->
  Py.split1 "/" storage_url = [container; prefix] ->
  azure_list_blobs w account None container prefix = Raise e ->
  azure_credentials_set w = false ->
  Storage._download_blob w uri out_dir st
  = (Raise e,
     {| files := files st;
        trace := trace st ++ [AzureListBlobs account None container prefix;
                              AzureListBlobs account None container prefix] |}).
Proof.
  intros Hs Hp Hlist Hcred.
  rewrite (download_blob_unfold _ _ _ _ _ _ _ Hs Hp).
  unfold bind at 1. unfold try_except at 1.
  rewrite list_blobs_azure_run, Hlist.
  unfold bind at 1. rewrite (get_token_unset _ _ Hcred).
  rewrite list_blobs_azure_run, Hlist. cbn [files trace].
  now rewrite <- app_assoc.
Qed.

Lemma X8_blob_retry_without_credentials_witness :
  Storage._download_blob
    (Examples.with_azure Examples.env_no_subscription Examples.forbidden
       (fun _ => Ok [Examples.azure_model]) (Ok "token"))
    Examples.blob_uri "/out" Examples.disk
  = (Raise (ExternalError "azure.common.AzureHttpError"),
     {| files := files Examples.disk;
        trace := trace Examples.disk ++
                 [AzureListBlobs "acct" None "container" "models";
                  AzureListBlobs "acct" None "container" "models"] |}).
Proof.
  apply (X8_blob_retry_without_credentials
           (Examples.with_azure Examples.env_no_subscription Examples.forbidden
              (fun _ => Ok [Examples.azure_model]) (Ok "token"))
           Examples.blob_uri "/out" "acct" "container/models" "container" "models");
    reflexivity.
Defined.

Lemma blob_fallback_run (w : world)
    (uri out_dir account storage_url container prefix : string)
    (e1 : exn) (st : state) :
  Re.search _BLOB_RE uri = Some [account; storage_url] ->
  Py.split1 "/" storage_url = [container; prefix] ->
  azure_list_blobs w account None container prefix = Raise e1 ->
  azure_credentials_set w = true ->
  let authority := "https://login.microsoftonline.com/" ++ getenv w "AZ_TENANT_ID" "" in
  let client := getenv w "AZ_CLIENT_ID" "" in
  let first := [AzureListBlobs account None container prefix;
                AdalAcquireToken authority client] in
  Storage._download_blob w uri out_dir st
  = match adal_acquire_token w authority "https://storage.azure.com/" client
            (getenv w "AZ_CLIENT_SECRET" "") with
    | Raise e => (Raise e, {| files := files st; trace := trace st ++ first |})
    | Ok t =>
        let st1 := {| files := files st;
                      trace := trace st ++ first ++
                               [AzureListBlobs account (Some t) container prefix] |} in
        match azure_list_blobs w account (Some t) container prefix with
        | Raise e2 => (Raise e2, st1)
        | Ok blobs =>
            bind (Storage.blob_loop container prefix out_dir blobs 0)
              (fun count =>
                 if Nat.eqb count 0 then raise (ArtifactNotFound uri) else ret tt)
              st1
        end
    end.
Proof.
  intros Hs Hp Hlist Hcred authority client first.
  rewrite (download_blob_unfold _ _ _ _ _ _ _ Hs Hp).
  unfold bind at 1. unfold try_except at 1.
  rewrite list_blobs_azure_run, Hlist.
  unfold bind at 1. rewrite (get_token_set _ _ Hcred).
  fold authority. fold client. cbn [files trace].
  destruct (adal_acquire_token w authority _ client _) as [t|e].
  - rewrite list_blobs_azure_run. cbn [files trace]. subst first.
    rewrite <- !app_assoc. cbn [app].
    destruct (azure_list_blobs w account (Some t) container prefix); reflexivity.
  - subst first. rewrite <- !app_assoc. reflexivity.
Qed.

(** X9. When the anonymous listing fails and all four credential settings
    are there, [_download_blob] asks the identity service for a token once,
    at the login authority of the tenant and for the storage resource. A
    failure of that exchange is what the caller gets, with no second
    listing. Otherwise the container is listed again with the token, and
    from there on the download goes as after a first listing: a failed
    listing is passed on, an empty one is artifact-not-found, and on
    return every listed blob has been fetched. *)
Theorem X9_blob_token_fallback (w : world)
    (uri out_dir account storage_url container prefix : string)
    (e1 : exn) (st : state) :
  Re.search _BLOB_RE uri = Some [account; storage_url] ->
  Py.split1 "/" storage_url = [container; prefix] ->
  azure_list_blobs w account None container prefix = Raise e1 ->
  azure_credentials_set w = true ->
  let authority := "https://login.microsoftonline.com/" ++ getenv w "AZ_TENANT_ID" "" in
  let client := getenv w "AZ_CLIENT_ID" "" in
  let first := [AzureListBlobs account None container prefix;
                AdalAcquireToken authority client] in
  match adal_acquire_token w authority "https://storage.azure.com/" client
          (getenv w "AZ_CLIENT_SECRET" "") with
  | Raise e =>
      Storage._download_blob w uri out_dir st
      = (Raise e, {| files := files st; trace := trace st ++ first |})
  | Ok t =>
      let second := AzureListBlobs account (Some t) container prefix in
      match azure_list_blobs w account (Some t) container prefix with
      | Raise e2 =>
          Storage._download_blob w uri out_dir st
          = (Raise e2,
             {| files := files st; trace := trace st ++ first ++ [second] |})
      | Ok blobs =>
          match Storage._download_blob w uri out_dir st with
          | (Ok _, st') =>
              blobs <> []
              /\ trace st' = (trace st ++ first ++ second
                                :: blob_fetches container prefix out_dir blobs)%list
          | (Raise e, st') =>
              (blobs = [] /\ e = ArtifactNotFound uri /\ files st' = files st)
              \/ (blobs <> [] /\ exists kind, e = OSError kind)
          end
      end
  end.
Proof.
  intros Hs Hp Hlist Hcred authority client first.
  rewrite (blob_fallback_run _ _ out_dir _ _ _ _ _ st Hs Hp Hlist Hcred).
  fold authority. fold client. fold first.
  destruct (adal_acquire_token w authority _ client _) as [t|e]; [|reflexivity].
  cbv zeta.
  destruct (azure_list_blobs w account (Some t) container prefix) as [blobs|e2];
    [|reflexivity].
  set (st1 := {| files := files st; trace := _ |}).
  pose proof (blob_after_listing uri container prefix out_dir blobs st1) as H.
  destruct (bind _ _ st1) as [[u|e] st'].
  - destruct H as [Hne Htr]. split; [exact Hne|].
    rewrite Htr. subst st1 first. cbn [trace].
    rewrite <- !app_assoc. reflexivity.
  - destruct H as [(-> & -> & ->)|(Hne & Hk & _)]; [left|right]; auto.
Qed.

Lemma X9_blob_token_fallback_witness :
  match Storage._download_blob
          (Examples.with_azure Examples.env_service_principal Examples.forbidden
             (fun _ => Ok [Examples.azure_model]) (Ok "token"))
          Examples.blob_uri "/out" Examples.disk with
  | (Ok _, st') =>
      trace st' =
        [AzureListBlobs "acct" None "container" "models";
         AdalAcquireToken "https://login.microsoftonline.com/tenant" "client";
         AzureListBlobs "acct" (Some "token") "container" "models";
         AzureGetBlobToPath "container" "models/a/model.pth" "/out/a/model.pth"]
  | (Raise _, _) => False
  end.
Proof.
  pose proof (X9_blob_token_fallback
                (Examples.with_azure Examples.env_service_principal Examples.forbidden
                   (fun _ => Ok [Examples.azure_model]) (Ok "token"))
                Examples.blob_uri "/out" "acct" "container/models" "container" "models"
                (ExternalError "azure.common.AzureHttpError") Examples.disk
                eq_refl eq_refl eq_refl eq_refl) as H.
  cbv zeta in H.
  change (adal_acquire_token _ _ _ _ _) with (@Ok string "token") in H.
  cbv iota beta in H.
  change (azure_list_blobs _ _ _ _ _) with (@Ok (list blob) [Examples.azure_model]) in H.
  cbv iota beta in H.
  assert (Hok : fst (Storage._download_blob
                      (Examples.with_azure Examples.env_service_principal
                         Examples.forbidden
                         (fun _ => Ok [Examples.azure_model]) (Ok "token"))
                      Examples.blob_uri "/out" Examples.disk) = Ok tt)
    by (vm_compute; reflexivity).
  destruct (Storage._download_blob _ _ _ _) as [[u|e] st'].
  - exact (proj2 H).
  - discriminate Hok.
Defined.

(** ** Where a blob lands *)

Lemma rstrip_by_keep (c : ascii) (a : string) :
  a <> "" -> Py.endswith_char a c = false -> Py.rstrip_by (Py.ascii_eqb c) a = a.
Proof.
  induction a as [|d a IH]; [congruence|]. intros _ H.
  cbn [Py.rstrip_by]. destruct a as [|d' a'].
  - cbn [Py.endswith_char] in H. cbn [Py.rstrip_by]. now rewrite H.
  - cbn [Py.endswith_char] in H. rewrite IH by (congruence || exact H).
    reflexivity.
Qed.

Lemma rstrip_by_app_sep (c : ascii) (a : string) :
  Py.rstrip_by (Py.ascii_eqb c) (a ++ String c "") = Py.rstrip_by (Py.ascii_eqb c) a.
Proof.
  induction a as [|d a IH]; rewrite ?str_app_cons, ?str_app_nil; cbn [Py.rstrip_by].
  - now rewrite ascii_eqb_refl.
  - now rewrite IH.
Qed.

Lemma all_slashes_app_sep (a : string) :
  a <> "" -> Py.endswith_char a "/" = false -> OsPath.all_slashes (a ++ "/") = false.
Proof.
  unfold OsPath.all_slashes.
  induction a as [|d a IH]; [congruence|]. intros _ H.
  rewrite str_app_cons. cbn [Py.lstrip_by].
  destruct (Py.ascii_eqb "/" d) eqn:Hd; [|reflexivity].
  destruct a as [|d' a'].
  - cbn [Py.endswith_char] in H. congruence.
  - apply IH; [congruence|exact H].
Qed.

Lemma endswith_char_app (a b : string) (c : ascii) :
  b <> "" -> Py.endswith_char (a ++ b) c = Py.endswith_char b c.
Proof.
  intros Hb. induction a as [|d a IH]; rewrite ?str_app_cons, ?str_app_nil;
    [reflexivity|].
  cbn [Py.endswith_char]. destruct (a ++ b) as [|x r] eqn:E; [|exact IH].
  destruct a; [rewrite str_app_nil in E; congruence|].
  rewrite str_app_cons in E. discriminate E.
Qed.

(** [os.path.split] of [a/leaf]. *)
Lemma split_dir_leaf (a leaf : string) :
  a <> "" -> Py.endswith_char a "/" = false -> Py.has_char "/" leaf = false ->
  OsPath.split (a ++ "/" ++ leaf) = (a, leaf).
Proof.
  intros Ha Hend Hleaf. unfold OsPath.split.
  change (a ++ "/" ++ leaf) with (a ++ String "/" leaf).
  rewrite (rpartition_last _ _ _ Hleaf).
  rewrite (all_slashes_app_sep _ Ha Hend).
  change (a ++ "/") with (a ++ String "/" "").
  now rewrite rstrip_by_app_sep, (rstrip_by_keep _ _ Ha Hend).
Qed.

Lemma blob_step_file (container prefix out_dir : string) (b : blob)
    (st st' : state) :
  Storage.blob_step container prefix out_dir b st = (Ok tt, st') ->
  files st' !! blob_target prefix out_dir (name b) = Some (File (blob_body b)).
Proof.
  unfold Storage.blob_step, blob_target.
  destruct (Py.has_char "/" (name b)).
  - destruct (OsPath.split (name b)) as [head tail].
    set (dir := OsPath.join out_dir
                  (if Py.startswith (Py.drop (String.length prefix) head) "/"
                   then Py.drop 1 (Py.drop (String.length prefix) head)
                   else Py.drop (String.length prefix) head)).
    intros H. unfold bind at 1 in H. unfold bind at 1 in H.
    unfold Fs.isdir_path at 1 in H. unfold bind at 1 in H.
    unfold get_files at 1 in H. unfold ret at 1 in H.
    destruct (negb (Fs.isdir (files st) dir)).
    + unfold bind at 1 in H. rewrite makedirs_run in H.
      destruct (Fs.makedirs_files _ _ _ _) as [fs1|e] eqn:Hm; [|discriminate H].
      unfold ret at 1 in H. unfold bind at 1 in H. rewrite write_file_run in H.
      cbn [files trace] in H.
      destruct (Fs.isdir fs1 (OsPath.join dir tail)); inversion H; subst.
      cbn [files]. apply lookup_insert_eq.
    + unfold bind at 1 in H. unfold ret at 1 2 in H.
      unfold bind at 1 in H. rewrite write_file_run in H.
      destruct (Fs.isdir (files st) (OsPath.join dir tail)); inversion H; subst.
      cbn [files]. apply lookup_insert_eq.
  - intros H. unfold bind at 1 in H. unfold ret at 1 in H.
    unfold bind at 1 in H. rewrite write_file_run in H.
    destruct (Fs.isdir (files st) (OsPath.join out_dir (name b)));
      inversion H; subst.
    cbn [files]. apply lookup_insert_eq.
Qed.

Lemma blob_target_nested (prefix out_dir cut sub leaf : string) :
  cut = "" \/ cut = "/" ->
  sub <> "" -> Py.startswith sub "/" = false -> Py.endswith_char sub "/" = false ->
  Py.has_char "/" leaf = false ->
  blob_target prefix out_dir (prefix ++ cut ++ sub ++ "/" ++ leaf)
  = OsPath.join (OsPath.join out_dir sub) leaf.
Proof.
  intros Hcut Hsub Hrel Hend Hleaf. unfold blob_target.
  assert (Hslash : Py.has_char "/" (prefix ++ cut ++ sub ++ "/" ++ leaf) = true).
  { rewrite !has_char_app. cbn [Py.has_char]. rewrite ascii_eqb_refl.
    cbn [orb]. now rewrite !orb_true_r. }
  rewrite Hslash.
  replace (prefix ++ cut ++ sub ++ "/" ++ leaf)
    with ((prefix ++ cut ++ sub) ++ "/" ++ leaf)
    by (now rewrite !str_app_assoc).
  assert (Hne : prefix ++ cut ++ sub <> "").
  { intros E. apply (f_equal String.length) in E.
    rewrite !str_app_length in E. destruct sub; [congruence|].
    cbn [String.length] in E. lia. }
  assert (Hend' : Py.endswith_char (prefix ++ cut ++ sub) "/" = false).
  { rewrite <- str_app_assoc. now rewrite endswith_char_app. }
  rewrite (split_dir_leaf _ _ Hne Hend' Hleaf), drop_app.
  destruct Hcut as [-> | ->].
  - rewrite str_app_nil, Hrel. reflexivity.
  - rewrite str_app_cons, str_app_nil. reflexivity.
Qed.

Lemma startswith_slash_cons (s : string) : Py.startswith (String "/" s) "/" = true.
Proof. reflexivity. Qed.

Lemma blob_target_escape (prefix out_dir sub leaf : string) :
  sub <> "" -> Py.endswith_char sub "/" = false -> Py.has_char "/" leaf = false ->
  blob_target prefix out_dir (prefix ++ "//" ++ sub ++ "/" ++ leaf)
  = "/" ++ sub ++ "/" ++ leaf.
Proof.
  intros Hsub Hend Hleaf. unfold blob_target.
  assert (Hslash : Py.has_char "/" (prefix ++ "//" ++ sub ++ "/" ++ leaf) = true).
  { rewrite !has_char_app. cbn [Py.has_char]. rewrite ascii_eqb_refl.
    cbn [orb]. now rewrite !orb_true_r. }
  rewrite Hslash.
  replace (prefix ++ "//" ++ sub ++ "/" ++ leaf)
    with ((prefix ++ "//" ++ sub) ++ "/" ++ leaf)
    by (now rewrite !str_app_assoc).
  assert (Hne : prefix ++ "//" ++ sub <> "").
  { intros E. apply (f_equal String.length) in E.
    rewrite !str_app_length in E. cbn [String.length] in E. lia. }
  assert (Hend' : Py.endswith_char (prefix ++ "//" ++ sub) "/" = false).
  { rewrite <- str_app_assoc. now rewrite endswith_char_app. }
  rewrite (split_dir_leaf _ _ Hne Hend' Hleaf), drop_app.
  rewrite !str_app_cons, !str_app_nil.
  rewrite startswith_slash_cons. cbn [Py.drop].
  unfold OsPath.join at 2. rewrite startswith_slash_cons.
  unfold OsPath.join. rewrite (no_slash_not_absolute _ Hleaf).
  cbn [Py.is_empty orb].
  change (String "/" sub) with ("/" ++ sub).
  rewrite (endswith_char_app "/" sub "/" Hsub), Hend.
  now rewrite !str_app_cons, !str_app_nil.
Qed.

(** X10. A blob below the listing prefix keeps its sub-folders: when the
    blob is named [prefix/sub/leaf] (or [prefix] followed directly by
    [sub/leaf]), where [sub] is a relative path with no trailing slash and
    [leaf] has no slash, a step of [_download_blob] that succeeds has
    stored the blob's content at [out_dir/sub/leaf] and asked the service
    for exactly that blob and that path. *)
Theorem X10_blob_keeps_subfolders (container prefix out_dir cut sub leaf : string)
    (b : blob) (st st' : state) :
  cut = "" \/ cut = "/" ->
  sub <> "" -> Py.startswith sub "/" = false -> Py.endswith_char sub "/" = false ->
  Py.has_char "/" leaf = false ->
  name b = prefix ++ cut ++ sub ++ "/" ++ leaf ->
  Storage.blob_step container prefix out_dir b st = (Ok tt, st') ->
  files st' !! OsPath.join (OsPath.join out_dir sub) leaf = Some (File (blob_body b))
  /\ trace st' = (trace st ++ [AzureGetBlobToPath container (name b)
                                 (OsPath.join (OsPath.join out_dir sub) leaf)])%list.
Proof.
  intros Hcut Hsub Hrel Hend Hleaf Hname Hrun.
  rewrite <- (blob_target_nested prefix out_dir cut sub leaf Hcut Hsub Hrel Hend Hleaf).
  rewrite <- Hname. split.
  - exact (blob_step_file _ _ _ _ _ _ Hrun).
  - exact (blob_step_spec _ _ _ _ _ _ _ Hrun).
Qed.

Lemma X10_blob_keeps_subfolders_witness :
  let st' := snd (Storage.blob_step "container" "models" "/out" Examples.azure_model
                    Examples.disk) in
  files st' !! "/out/a/model.pth" = Some (File (Raw "w"))
  /\ trace st' = [AzureGetBlobToPath "container" "models/a/model.pth"
                    "/out/a/model.pth"].
Proof.
  apply (X10_blob_keeps_subfolders "container" "models" "/out" "/" "a" "model.pth"
           Examples.azure_model Examples.disk);
    first [right; reflexivity | discriminate | reflexivity
          | vm_compute; reflexivity].
Defined.

(** X11. A blob whose name has an empty segment right after the listing
    prefix, [prefix//sub/leaf], is not stored below the destination: only
    one of the two slashes is taken off, the rest is an absolute path, and
    a step of [_download_blob] that succeeds has stored the content at
    [/sub/leaf], whatever the destination directory is. *)
Theorem X11_blob_empty_segment_leaves_out_dir (container prefix out_dir sub leaf : string)
    (b : blob) (st st' : state) :
  sub <> "" -> Py.endswith_char sub "/" = false -> Py.has_char "/" leaf = false ->
  name b = prefix ++ "//" ++ sub ++ "/" ++ leaf ->
  Storage.blob_step container prefix out_dir b st = (Ok tt, st') ->
  files st' !! ("/" ++ sub ++ "/" ++ leaf) = Some (File (blob_body b))
  /\ trace st' = (trace st ++ [AzureGetBlobToPath container (name b)
                                 ("/" ++ sub ++ "/" ++ leaf)])%list.
Proof.
  intros Hsub Hend Hleaf Hname Hrun.
  rewrite <- (blob_target_escape prefix out_dir sub leaf Hsub Hend Hleaf).
  rewrite <- Hname. split.
  - exact (blob_step_file _ _ _ _ _ _ Hrun).
  - exact (blob_step_spec _ _ _ _ _ _ _ Hrun).
Qed.

Lemma X11_blob_empty_segment_leaves_out_dir_witness :
  let b := {| name := "models//etc/passwd"; blob_body := Raw "x" |} in
  let st' := snd (Storage.blob_step "container" "models" "/out" b Examples.disk) in
  files st' !! "/etc/passwd" = Some (File (Raw "x"))
  /\ trace st' = [AzureGetBlobToPath "container" "models//etc/passwd" "/etc/passwd"].
Proof.
  apply (X11_blob_empty_segment_leaves_out_dir "container" "models" "/out" "etc" "passwd"
           {| name := "models//etc/passwd"; blob_body := Raw "x" |} Examples.disk);
    first [discriminate | reflexivity | vm_compute; reflexivity].
Defined.

(** ** Local sources with a destination *)











(** ** The object-store client *)







Lemma partition_first (c : ascii) (a b : string) :
  Py.has_char c a = false -> Py.partition c (a ++ String c b) = (a, true, b).
Proof.
  induction a as [|d a IH]; rewrite ?str_app_cons, ?str_app_nil;
    cbn [Py.partition Py.has_char].
  - intros _. now rewrite ascii_eqb_refl.
  - intros H. apply orb_false_elim in H as [Hd Ha]. now rewrite Hd, (IH Ha).
Qed.





(** ** Bucket, key prefix and the listing of the two object stores *)

Lemma download_s3_lists_first (w : world) (uri temp : string) (client : minio_client)
    (st : state) :
  Storage._create_minio_client w = Ok client ->
  Storage._download_s3 w uri temp st =
  bind (lift (minio_list_objects w client (bucket_name_of uri _S3_PREFIX)
                (bucket_path_of uri _S3_PREFIX)))
    (fun objects =>
       bind (Storage.s3_loop (bucket_name_of uri _S3_PREFIX)
               (bucket_path_of uri _S3_PREFIX) temp objects 0)
         (fun count => if Nat.eqb count 0 then raise (ArtifactNotFound uri) else ret tt))
    {| files := files st;
       trace := trace st ++ [MinioListObjects client (bucket_name_of uri _S3_PREFIX)
                               (bucket_path_of uri _S3_PREFIX)] |}.
Proof.
  intros Hclient. unfold Storage._download_s3.
  fold (bucket_args uri _S3_PREFIX).
  fold (bucket_name_of uri _S3_PREFIX). fold (bucket_path_of uri _S3_PREFIX).
  rewrite Hclient. reflexivity.
Qed.

(** [scheme://bucket/path] is taken apart at the first slash after the
    scheme. *)
Lemma bucket_args_path (scheme bucket path : string) :
  Py.has_char "/" bucket = false ->
  bucket_name_of (scheme ++ bucket ++ "/" ++ path) scheme = bucket
  /\ bucket_path_of (scheme ++ bucket ++ "/" ++ path) scheme = path.
Proof.
  intros H. unfold bucket_name_of, bucket_path_of, bucket_args.
  rewrite replace1_prefix. unfold Py.split1.
  change (bucket ++ "/" ++ path) with (bucket ++ String "/" path).
  rewrite (partition_first _ _ _ H). split; reflexivity.
Qed.

Lemma s3_trace_starts (w : world) (uri temp : string) (client : minio_client)
    (st : state) :
  Storage._create_minio_client w = Ok client ->
  exists tl,
    trace (snd (Storage._download_s3 w uri temp st))
    = (trace st ++ MinioListObjects client (bucket_name_of uri _S3_PREFIX)
                     (bucket_path_of uri _S3_PREFIX) :: tl)%list.
Proof.
  intros Hclient.
  destruct (minio_list_objects w client (bucket_name_of uri _S3_PREFIX)
              (bucket_path_of uri _S3_PREFIX)) as [objects|e] eqn:Hlist.
  - destruct (Storage._download_s3 w uri temp st) as [r st'] eqn:Hrun.
    pose proof (download_s3_spec _ _ _ _ _ _ _ _ Hclient Hlist Hrun) as H.
    cbv zeta in H. cbn [snd]. destruct r as [u|e].
    + destruct H as [_ H]. eauto.
    + destruct H as [_ H]. exact H.
  - rewrite (download_s3_lists_first _ _ _ _ _ Hclient), Hlist.
    exists []. reflexivity.
Qed.

(** X16. [_download_s3] on [s3://bucket/path] lists the bucket [bucket]
    under the key prefix [path], everything after the first slash,
    unchanged (no slash is added or taken off); that listing is the first
    call it makes, whatever comes after. *)
Theorem X16_s3_lists_bucket_and_prefix (w : world) (bucket path temp_dir : string)
    (client : minio_client) (st : state) :
  Py.has_char "/" bucket = false ->
  Storage._create_minio_client w = Ok client ->
  exists tl,
    trace (snd (Storage._download_s3 w ("s3://" ++ bucket ++ "/" ++ path) temp_dir st))
    = (trace st ++ MinioListObjects client bucket path :: tl)%list.
Proof.
  intros Hb Hclient.
  destruct (s3_trace_starts w ("s3://" ++ bucket ++ "/" ++ path) temp_dir client st
              Hclient) as [tl Htl].
  destruct (bucket_args_path _S3_PREFIX bucket path Hb) as [Hn Hp].
  change (_S3_PREFIX ++ bucket ++ "/" ++ path)
    with ("s3://" ++ bucket ++ "/" ++ path) in Hn, Hp.
  rewrite Hn, Hp in Htl. eauto.
Qed.

Lemma X16_s3_lists_bucket_and_prefix_witness :
  exists tl,
    trace (snd (Storage._download_s3 Examples.with_models "s3://foo/bar/v1/" "/out"
                  Examples.disk))
    = MinioListObjects Examples.default_client "foo" "bar/v1/" :: tl.
Proof.
  apply (X16_s3_lists_bucket_and_prefix Examples.with_models "foo" "bar/v1/" "/out"
           Examples.default_client Examples.disk); reflexivity.
Defined.

(** X17. A listing call that fails is not caught by the two object-store
    backends: [_download_s3] and [_download_gcs] raise the very exception
    of the listing, having made that one call and written nothing. *)
Theorem X17_listing_failure_is_passed_on (w : world) (uri temp_dir : string)
    (st : state) (e : exn) :
  (forall client,
     Storage._create_minio_client w = Ok client ->
     minio_list_objects w client (bucket_name_of uri _S3_PREFIX)
       (bucket_path_of uri _S3_PREFIX) = Raise e ->
     Storage._download_s3 w uri temp_dir st
     = (Raise e,
        {| files := files st;
           trace := trace st ++ [MinioListObjects client (bucket_name_of uri _S3_PREFIX)
                                   (bucket_path_of uri _S3_PREFIX)] |}))
  /\ (gcs_list_blobs w (negb (gcs_default_credentials w))
        (bucket_name_of uri _GCS_PREFIX)
        (with_trailing_slash (bucket_path_of uri _GCS_PREFIX)) = Raise e ->
      Storage._download_gcs w uri temp_dir st
      = (Raise e,
         {| files := files st;
            trace := trace st ++
                     [GcsListBlobs (negb (gcs_default_credentials w))
                        (bucket_name_of uri _GCS_PREFIX)
                        (with_trailing_slash (bucket_path_of uri _GCS_PREFIX))] |})).
Proof.
  split.
  - intros client Hclient Hlist.
    rewrite (download_s3_lists_first _ _ _ _ _ Hclient), Hlist. reflexivity.
  - intros Hlist. rewrite download_gcs_lists_first, Hlist. reflexivity.
Qed.

Lemma X17_listing_failure_is_passed_on_witness :
  Storage._download_s3 Examples.denied "s3://random/path" "/out" Examples.disk
  = (Raise (ExternalError "minio.error.AccessDenied"),
     {| files := files Examples.disk;
        trace := [MinioListObjects Examples.default_client "random" "path"] |}).
Proof.
  apply (proj1 (X17_listing_failure_is_passed_on Examples.denied "s3://random/path"
                  "/out" Examples.disk (ExternalError "minio.error.AccessDenied"))
           Examples.default_client);
    reflexivity.
Defined.

(** ** The folder below the key prefix is mirrored *)

Lemma lstrip_slash_keep (rel : string) :
  Py.startswith rel "/" = false -> Py.lstrip_by (Py.ascii_eqb "/") rel = rel.
Proof.
  destruct rel as [|c rel]; [reflexivity|].
  cbn [Py.startswith Py.lstrip_by]. rewrite andb_true_r. now intros ->.
Qed.

Lemma relative_key_below (bp cut rel : string) :
  cut = "" \/ cut = "/" ->
  rel <> "" -> Py.startswith rel "/" = false -> Py.endswith_char rel "/" = false ->
  relative_key bp (bp ++ cut ++ rel) = rel.
Proof.
  intros Hcut Hne Hrel Hend. unfold relative_key. rewrite replace1_prefix.
  unfold Py.strip_slash, Py.strip_by.
  assert (Hl : Py.lstrip_by (Py.ascii_eqb "/") (cut ++ rel) = rel).
  { destruct Hcut as [-> | ->].
    - rewrite str_app_nil. now apply lstrip_slash_keep.
    - rewrite str_app_cons, str_app_nil. cbn [Py.lstrip_by].
      rewrite ascii_eqb_refl. now apply lstrip_slash_keep. }
  rewrite Hl. now apply rstrip_by_keep.
Qed.

(** X18. Both object-store backends mirror the folder below the key
    prefix: an object (backend A, not a directory marker) or a blob
    (backend B) named by the key prefix of the URI, an optional slash and
    a relative path [rel] is fetched to the destination joined with [rel],
    sub-folders included. *)
Theorem X18_objects_mirror_below_prefix (bucket bp temp_dir cut rel : string)
    (st st' : state) :
  cut = "" \/ cut = "/" ->
  rel <> "" -> Py.startswith rel "/" = false -> Py.endswith_char rel "/" = false ->
  (forall obj,
     is_dir obj = false -> object_name obj = bp ++ cut ++ rel ->
     Storage.s3_step bucket bp temp_dir obj st = (Ok tt, st') ->
     trace st' = (trace st ++ [MinioFgetObject bucket (object_name obj)
                                 (OsPath.join temp_dir rel)])%list)
  /\ (forall b,
        Py.strip rel <> "" -> name b = bp ++ cut ++ rel ->
        Storage.gcs_step bp temp_dir b st = (Ok tt, st') ->
        trace st' = (trace st ++ [GcsDownloadToFilename (name b)
                                    (OsPath.join temp_dir rel)])%list).
Proof.
  intros Hcut Hne Hrel Hend.
  pose proof (relative_key_below bp cut rel Hcut Hne Hrel Hend) as Hkey.
  split.
  - intros obj Hdir Hname Hrun. apply s3_step_spec in Hrun. rewrite Hrun.
    rewrite <- Hname in Hkey.
    unfold s3_fetches, s3_target. cbn [List.filter]. rewrite Hdir.
    cbn [negb List.map]. rewrite Hkey.
    apply String.eqb_neq in Hne. now rewrite Hne.
  - intros b Hblank Hname Hrun. apply gcs_step_spec in Hrun. rewrite Hrun.
    rewrite <- Hname in Hkey.
    unfold gcs_fetches, gcs_kept. cbn [List.filter]. rewrite Hkey.
    apply String.eqb_neq in Hblank. rewrite Hblank.
    cbn [negb List.map]. now rewrite Hkey.
Qed.

Lemma X18_objects_mirror_below_prefix_witness :
  trace (snd (Storage.s3_step "foo" "bar" "/out" Examples.s3_model Examples.disk))
  = [MinioFgetObject "foo" "bar/a/model.pth" "/out/a/model.pth"]
  /\ trace (snd (Storage.gcs_step "bar" "/out" Examples.gcs_model Examples.disk))
     = [GcsDownloadToFilename "bar/a/model.pth" "/out/a/model.pth"].
Proof.
  split.
  - apply (proj1 (X18_objects_mirror_below_prefix "foo" "bar" "/out" "/" "a/model.pth"
                    Examples.disk
                    (snd (Storage.s3_step "foo" "bar" "/out" Examples.s3_model
                            Examples.disk))
                    (or_intror eq_refl) ltac:(discriminate) eq_refl eq_refl)
             Examples.s3_model);
      first [reflexivity | vm_compute; reflexivity].
  - apply (proj2 (X18_objects_mirror_below_prefix "foo" "bar" "/out" "/" "a/model.pth"
                    Examples.disk
                    (snd (Storage.gcs_step "bar" "/out" Examples.gcs_model
                            Examples.disk))
                    (or_intror eq_refl) ltac:(discriminate) eq_refl eq_refl)
             Examples.gcs_model);
      first [discriminate | reflexivity | vm_compute; reflexivity].
Defined.

(** ** What [download] leaves behind *)

(** X19. Without a destination, [download] of a URI that is not local
    creates its temporary directory before it looks at the URI any
    further, and never takes it away: the directory is there afterwards
    whether the download returned or raised, also for a URI of no known
    kind, and a run that returns, returns that directory. *)
Theorem X19_temporary_directory_stays (w : world) (mount uri : string)
    (st st' : state) (r : result string) :
  is_local_uri (files st) uri = false ->
  Storage.download w mount uri None st = (r, st') ->
  Fs.exists_ (files st') (mkdtemp_name w (files st)) = true
  /\ (forall d, r = Ok d -> d = mkdtemp_name w (files st))
  /\ (Py.startswith uri _GCS_PREFIX = false ->
      Py.startswith uri _S3_PREFIX = false ->
      Re.matches _BLOB_RE uri = false ->
      Re.matches _URI_RE uri = false ->
      Py.startswith uri mount = false ->
      r = Raise (UnrecognizedScheme uri)
      /\ files st' = <[mkdtemp_name w (files st) := Dir]> (files st)
      /\ trace st' = trace st).
Proof.
  intros Hlocal Hrun. rewrite (download_fresh_dir _ _ _ _ Hlocal) in Hrun.
  split; [|split].
  - eapply keeps_dispatch; [exact Hrun|]. cbn [files].
    unfold Fs.exists_. now rewrite lookup_insert_eq.
  - intros d ->. eapply returns_dispatch; exact Hrun.
  - intros Hgcs Hs3 Hblob Huri Hmount. unfold Storage.dispatch in Hrun.
    rewrite Hgcs, Hs3, Hblob, Huri, Hmount in Hrun.
    unfold raise in Hrun. inversion Hrun; subst. repeat split; reflexivity.
Qed.

Lemma X19_temporary_directory_stays_witness :
  let run := Storage.download Examples.offline Examples.mount_dirs
               "ftp://host/model" None Examples.disk in
  Fs.exists_ (files (snd run)) "/tmp/tmpdir" = true
  /\ fst run = Raise (UnrecognizedScheme "ftp://host/model").
Proof.
  destruct (X19_temporary_directory_stays Examples.offline Examples.mount_dirs
              "ftp://host/model" Examples.disk
              (snd (Storage.download Examples.offline Examples.mount_dirs
                      "ftp://host/model" None Examples.disk))
              (fst (Storage.download Examples.offline Examples.mount_dirs
                      "ftp://host/model" None Examples.disk)))
    as (Hdir & _ & Hkind).
  - reflexivity.
  - vm_compute. reflexivity.
  - split; [exact Hdir|]. apply Hkind; reflexivity.
Defined.

(** X20. A URI under the managed mount, which is neither local nor of one
    of the remote kinds, is not downloaded: with a destination that exists
    [download] returns the destination, having called no service and left
    the file system as it was. *)
Theorem X20_managed_mount_is_not_downloaded (w : world) (mount uri out_dir : string)
    (st : state) :
  Py.startswith uri _GCS_PREFIX = false ->
  Py.startswith uri _S3_PREFIX = false ->
  Re.matches _BLOB_RE uri = false ->
  is_local_uri (files st) uri = false ->
  Re.matches _URI_RE uri = false ->
  Py.startswith uri mount = true ->
  Fs.exists_ (files st) out_dir = true ->
  Storage.download w mount uri (Some out_dir) st = (Ok out_dir, st).
Proof.
  intros Hgcs Hs3 Hblob Hlocal Huri Hmount Hout.
  rewrite (download_existing_dir _ _ _ _ _ Hout), Hlocal.
  unfold Storage.dispatch. rewrite Hgcs, Hs3, Hblob, Huri, Hmount. reflexivity.
Qed.

Lemma X20_managed_mount_is_not_downloaded_witness :
  Storage.download Examples.offline Examples.mount_dirs "/mnt/models/flowers"
    (Some "/out") Examples.disk
  = (Ok "/out", Examples.disk).
Proof.
  apply (X20_managed_mount_is_not_downloaded Examples.offline Examples.mount_dirs
           "/mnt/models/flowers" "/out" Examples.disk);
    first [reflexivity | vm_compute; reflexivity].
Defined.
